(** * CRDP multiplexor: a shallow embedding of
    [src/chrome/crdpMultiplexing/crdpMultiplexor.ts]

    The multiplexor shares one socket between up to ten channels.  Request
    ids are rewritten on the way out ([id * 10 + channelId]) and decoded on
    the way in; notifications are broadcast to every channel, each of which
    filters them by enabled domain and keeps the others for later.

    Modelling choices, all stated once here:
    - JavaScript numbers are [Z].  Inside the safe integer range
      ([safeInteger]) the arithmetic of the codec is exact: [%] is [Z.rem],
      [Math.floor (x / 10)] is [Z.div].  Past it the code rounds and [Z]
      does not, so every statement about what the codec computes carries
      the range as a hypothesis.
    - A wire text is identified with the envelope it denotes ([Message]);
      [JSON_parse] and [JSON_stringify] are the two directions of that
      identification.  Texts that are no JSON object, ids that are no
      integer and methods that are no string are outside the model.
    - The objects [_enabledDomains] and [_pendingMessagesForDomain] are
      finite maps that hold their own properties; [null] is [None].  A
      read [object[name]] that finds no own property goes on to
      [Object.prototype]: for the names in [objectPrototypeMembers] it
      answers the inherited member, which is truthy, is not [undefined]
      and has neither [push] nor [forEach].  The code stores nothing but
      [true] in [_enabledDomains]; an entry [false], which no statement of
      the code writes, reads as no entry.  The assignment
      [this._enabledDomains["__proto__"] = true] stores nothing in the
      code; the map keeps an entry for it, which reads the same, truthy.
    - A callback is known by its identity only.  Calling it is recorded as
      an [Invoke] effect; callbacks return normally and do not call back
      into the channel while they run.
    - Everything the code does to the outside world (socket, logger,
      timers, listeners) is recorded, in order, in a trace of [Effect]s.
    - A [throw] stops the computation but keeps the state reached so far:
      JavaScript does not roll mutations back. *)

From Stdlib Require Import ZArith String Ascii List Lia.
From stdpp Require Import base gmap strings list fin_maps.

Local Open Scope string_scope.

(** ** Strings: the two built-ins the code uses *)

(** [s.split(sep)] for a one-character separator. *)
Fixpoint split (sep : ascii) (s : string) : list string :=
  match s with
  | EmptyString => [EmptyString]
  | String c rest =>
      if Ascii.eqb c sep then EmptyString :: split sep rest
      else match split sep rest with
           | [] => [String c EmptyString]
           | part :: parts => String c part :: parts
           end
  end.

(** [s.endsWith(suffix)]. *)
Fixpoint endsWith (s suffix : string) : bool :=
  String.eqb s suffix ||
  match s with
  | EmptyString => false
  | String _ rest => endsWith rest suffix
  end.

(** Number of occurrences of a character. *)
Fixpoint occurrences (sep : ascii) (s : string) : nat :=
  match s with
  | EmptyString => 0
  | String c rest => (if Ascii.eqb c sep then 1 else 0) + occurrences sep rest
  end.

(** ** Wire envelope *)

Record Message := mkMessage {
  msg_id : option Z;           (* [message.id]; [None] is [undefined] *)
  msg_method : option string;  (* [message.method] *)
  msg_rest : string            (* params, result, error: never inspected *)
}.

Definition Data := Message.
Definition JSON_parse (data : Data) : Message := data.
Definition JSON_stringify (message : Message) : Data := message.

(** [message.id = v] *)
Definition set_id (message : Message) (v : Z) : Message :=
  {| msg_id := Some v; msg_method := msg_method message; msg_rest := msg_rest message |}.

Definition Callback := nat.

(** ** Errors, effects and the computation monad *)

(** The four messages given to [throwCriticalError]. *)
Inductive Critical :=
| NotTwoParts (method : string)
| NoIdNorMethod (data : Data)
| NoChannelFor (encodifiedId : option Z) (data : Data)
| SentWithoutId (channelName : string) (data : Data).

Inductive Error :=
| CriticalError (c : Critical)   (* [throwCriticalError] *)
| OnlyTenChannels                (* [new Error(`Only 10 channels are supported`)] *)
| TypeError.                     (* a property read on [null], [Object.keys(null)] *)

Inductive Effect :=
| LogError (c : Critical)
| LogSendingPending (domain : string) (count : nat)
| LogSendingPendingOfMember (domain : string) (* the same line, the count being
                                               the [length] of an inherited member *)
| LogDiscarding (domains : gset string)
| SocketSend (data : Data)
| SocketOn (event : string) (cb : Callback)
| SocketRemoveListener (event : string) (cb : Callback)
| SetTimeout (channelId : Z) (millis : Z)
| Invoke (channelId : Z) (cb : Callback) (data : Data).

Inductive Outcome (A : Type) :=
| Returned (a : A)
| Thrown (e : Error).
Arguments Returned {A} a.
Arguments Thrown {A} e.

Record Run (S A : Type) := mkRun {
  final : S;
  trace : list Effect;
  outcome : Outcome A
}.
Arguments mkRun {S A} _ _ _.
Arguments final {S A} _.
Arguments trace {S A} _.
Arguments outcome {S A} _.

Definition M (S A : Type) : Type := S -> Run S A.

Definition ret {S A} (a : A) : M S A := fun s => mkRun s [] (Returned a).

Definition bind {S A B} (c : M S A) (k : A -> M S B) : M S B := fun s =>
  let r := c s in
  match outcome r with
  | Returned a =>
      let r' := k a (final r) in
      mkRun (final r') (trace r ++ trace r') (outcome r')
  | Thrown e => mkRun (final r) (trace r) (Thrown e)
  end.

Definition throw {S A} (e : Error) : M S A := fun s => mkRun s [] (Thrown e).
Definition emit {S} (e : Effect) : M S unit := fun s => mkRun s [e] (Returned tt).
Definition get {S} : M S S := fun s => mkRun s [] (Returned s).
Definition put {S} (s : S) : M S unit := fun _ => mkRun s [] (Returned tt).

Declare Scope js_scope.
Delimit Scope js_scope with js.
Notation "'let!' x ':=' c 'in' k" := (bind c (fun x => k))
  (at level 10, x name, c at level 100, k at level 200) : js_scope.
Notation "c ';;;' k" := (bind c (fun _ => k))
  (at level 100, k at level 200, right associativity) : js_scope.
Local Open Scope js_scope.

(** [array.forEach(f)] *)
Fixpoint forEach {S X} (f : X -> M S unit) (array : list X) : M S unit :=
  match array with
  | [] => ret tt
  | x :: rest => f x ;;; forEach f rest
  end.

(** [array[k]] for a number [k]: [undefined] outside [0 .. length-1]. *)
Definition array_get {A} (array : list A) (k : Z) : option A :=
  if (k <? 0)%Z then None else array !! Z.to_nat k.

(** [array.indexOf(x)] *)
Definition indexOf (array : list Callback) (x : Callback) : Z :=
  match list_find (fun y => y = x) array with
  | Some (i, _) => Z.of_nat i
  | None => (-1)%Z
  end.

(** [array.splice(start, 1)]: a negative [start] counts from the end. *)
Definition splice1 {A} (array : list A) (start : Z) : list A :=
  let len := Z.of_nat (length array) in
  let actualStart :=
    if (start <? 0)%Z then Z.max (len + start) 0 else Z.min start len in
  delete (Z.to_nat actualStart) array.

(** ** Top-level helpers of the source file *)

Definition throwCriticalError {S} (message : Critical) : M S unit :=
  emit (LogError message) ;;; throw (CriticalError message).

Definition extractDomain {S} (method : string) : M S string :=
  match split "." method with
  | [domain; _] => ret domain               (* [methodParts.length === 2] *)
  | _ => throwCriticalError (NotTwoParts method) ;;; ret "Unknown"
  end.

Definition encodifyChannel (channelId id : Z) : Z := (id * 10 + channelId)%Z.
Definition decodifyChannelId (encodifiedId : Z) : Z := Z.rem encodifiedId 10.
Definition decodifyId (encodifiedId : Z) : Z := (encodifiedId / 10)%Z.

Definition MAX_SAFE_INTEGER : Z := (2 ^ 53 - 1)%Z.

(** [Number.isSafeInteger(x)], for an integer [x]. *)
Definition safeInteger (x : Z) : Prop :=
  (- MAX_SAFE_INTEGER <= x <= MAX_SAFE_INTEGER)%Z.

(** ** The channel object *)

Record CRDPChannel := mkChannel {
  name : string;
  id : Z;
  _messageCallbacks : list Callback;
  _enabledDomains : gmap string bool;
  _pendingMessagesForDomain : option (gmap string (list Data))
}.

Definition timeToPreserveMessagesInMillis : Z := (60 * 1000)%Z.

(** [new CRDPChannel(name, id, multiplexor)]: the field initialisers. *)
Definition newChannel (channelName : string) (channelId : Z) : CRDPChannel :=
  {| name := channelName; id := channelId;
     _messageCallbacks := [];
     _enabledDomains := ∅;
     _pendingMessagesForDomain := Some ∅ |}.

Definition set_messageCallbacks (cbs : list Callback) (c : CRDPChannel) : CRDPChannel :=
  {| name := name c; id := id c; _messageCallbacks := cbs;
     _enabledDomains := _enabledDomains c;
     _pendingMessagesForDomain := _pendingMessagesForDomain c |}.

Definition set_enabledDomains (e : gmap string bool) (c : CRDPChannel) : CRDPChannel :=
  {| name := name c; id := id c; _messageCallbacks := _messageCallbacks c;
     _enabledDomains := e;
     _pendingMessagesForDomain := _pendingMessagesForDomain c |}.

Definition set_pendingMessagesForDomain (p : option (gmap string (list Data)))
    (c : CRDPChannel) : CRDPChannel :=
  {| name := name c; id := id c; _messageCallbacks := _messageCallbacks c;
     _enabledDomains := _enabledDomains c;
     _pendingMessagesForDomain := p |}.

(** The names every plain object inherits from [Object.prototype]. *)
Definition objectPrototypeMembers : list string :=
  ["constructor"; "__defineGetter__"; "__defineSetter__"; "hasOwnProperty";
   "__lookupGetter__"; "__lookupSetter__"; "isPrototypeOf";
   "propertyIsEnumerable"; "toString"; "valueOf"; "__proto__"; "toLocaleString"].

Definition inheritedMember (name : string) : bool :=
  existsb (String.eqb name) objectPrototypeMembers.

(** Truthiness of [this._enabledDomains[domain]]: an own [true], or else
    the inherited member when there is one. *)
Definition domainEnabled (c : CRDPChannel) (domain : string) : bool :=
  match _enabledDomains c !! domain with
  | Some true => true
  | _ => inheritedMember domain
  end.

(** [CRDPMultiplexor.send(channel, data)].  It reads the channel's [id] and
    [name], writes to the socket and touches no field of the multiplexor,
    so it runs over any state. *)
Definition CRDPMultiplexor_send {S} (channel : CRDPChannel) (data : Data) : M S unit :=
  let message := JSON_parse data in
  let! data :=
    match msg_id message with
    | Some n => ret (JSON_stringify (set_id message (encodifyChannel (id channel) n)))
    | None =>
        throwCriticalError (SentWithoutId (name channel) data) ;;; ret data
    end in
  emit (SocketSend data).

Definition callMessageCallbacks (messageData : Data) : M CRDPChannel unit :=
  let! this := get in
  forEach (fun callback => emit (Invoke (id this) callback messageData))
          (_messageCallbacks this).

Definition storeMessageForLater (domain : string) (messageData : Data) : M CRDPChannel unit :=
  let! this := get in
  match _pendingMessagesForDomain this with
  | None => throw TypeError
  | Some pending =>
      match pending !! domain with
      | Some messages =>
          put (set_pendingMessagesForDomain
                 (Some (<[domain := (messages ++ [messageData])%list]> pending)) this)
      | None =>
          if inheritedMember domain
          then throw TypeError            (* the inherited member has no [push] *)
          else
            put (set_pendingMessagesForDomain
                   (Some (<[domain := ([] ++ [messageData])%list]> pending)) this)
      end
  end.

Definition callDomainMessageCallbacks (domain : string) (messageData : Data)
    : M CRDPChannel unit :=
  let! this := get in
  if domainEnabled this domain then callMessageCallbacks messageData
  else match _pendingMessagesForDomain this with
       | Some _ => storeMessageForLater domain messageData
       | None => ret tt
       end.

Definition sendUnsentPendingMessages (domain : string) : M CRDPChannel unit :=
  let! this := get in
  match _pendingMessagesForDomain this with
  | None => throw TypeError               (* [null[domain]] *)
  | Some pending =>
      match pending !! domain with
      | Some pendingMessagesData =>
          if (length (_messageCallbacks this) =? 0)%nat then ret tt
          else
            emit (LogSendingPending domain (length pendingMessagesData)) ;;;
            put (set_pendingMessagesForDomain (Some (delete domain pending)) this) ;;;
            forEach (fun pendingMessageData =>
                       callDomainMessageCallbacks domain pendingMessageData)
                    pendingMessagesData
      | None =>
          if inheritedMember domain then
            (* [pendingMessagesData] is the inherited member, not [undefined] *)
            if (length (_messageCallbacks this) =? 0)%nat then ret tt
            else
              emit (LogSendingPendingOfMember domain) ;;;
              (* [delete] finds no own property and removes nothing *)
              throw TypeError             (* the inherited member has no [forEach] *)
          else ret tt
      end
  end.

Definition discardUnsentPendingMessages : M CRDPChannel unit :=
  let! this := get in
  match _pendingMessagesForDomain this with
  | None => throw TypeError               (* [Object.keys(null)] *)
  | Some pending =>
      emit (LogDiscarding (dom pending)) ;;;
      put (set_pendingMessagesForDomain None this)
  end.

(** [method && method.endsWith(".enable")] *)
Definition isEnableMethod (method : option string) : bool :=
  match method with
  | Some m => endsWith m ".enable"
  | None => false
  end.

Definition CRDPChannel_send (messageData : Data) : M CRDPChannel unit :=
  let message := JSON_parse messageData in
  let method := msg_method message in
  let! domain :=
    match method with
    | Some m =>
        if isEnableMethod method then
          let! domain := extractDomain m in
          let! this := get in
          put (set_enabledDomains (<[domain := true]> (_enabledDomains this)) this) ;;;
          ret (Some domain)
        else ret None
    | None => ret None
    end in
  let! this := get in
  CRDPMultiplexor_send this messageData ;;;
  match domain with
  | Some domain => sendUnsentPendingMessages domain
  | None => ret tt
  end.

Definition CRDPChannel_on (event : string) (cb : Callback) : M CRDPChannel unit :=
  let! this := get in
  if String.eqb event "message" then
    (if (length (_messageCallbacks this) =? 0)%nat
     then emit (SetTimeout (id this) timeToPreserveMessagesInMillis)
     else ret tt) ;;;
    put (set_messageCallbacks (_messageCallbacks this ++ [cb])%list this)
  else emit (SocketOn event cb).

Definition CRDPChannel_removeListener (event : string) (cb : Callback)
    : M CRDPChannel unit :=
  let! this := get in
  if String.eqb event "message" then
    let index := indexOf (_messageCallbacks this) cb in
    put (set_messageCallbacks (splice1 (_messageCallbacks this) index) this)
  else emit (SocketRemoveListener event cb).

(** ** The multiplexor object *)

Record CRDPMultiplexor := mkMultiplexor {
  _channels : list CRDPChannel
}.

(** [new CRDPMultiplexor(socket)]: no channel yet. *)
Definition newMultiplexor : CRDPMultiplexor := {| _channels := [] |}.

(** Call a method on the channel object held at index [idx] of
    [_channels].  The array holds the object itself, so what the method
    does to the channel is seen through the array. *)
Definition onChannel (idx : nat) (method : M CRDPChannel unit) : M CRDPMultiplexor unit :=
  fun this =>
    match _channels this !! idx with
    | Some channel =>
        let r := method channel in
        mkRun {| _channels := <[idx := final r]> (_channels this) |} (trace r) (outcome r)
    | None => ret tt this
    end.

(** [for (const channel of channels) channel.method()] over the objects of
    the array, in order; a throw leaves the remaining ones untouched. *)
Fixpoint forOf (method : M CRDPChannel unit) (channels : list CRDPChannel)
    : Run (list CRDPChannel) unit :=
  match channels with
  | [] => mkRun [] [] (Returned tt)
  | channel :: rest =>
      let r := method channel in
      match outcome r with
      | Returned _ =>
          let r' := forOf method rest in
          mkRun (final r :: final r') (trace r ++ trace r') (outcome r')
      | Thrown e => mkRun (final r :: rest) (trace r) (Thrown e)
      end
  end.

Definition forOfChannels (method : M CRDPChannel unit) : M CRDPMultiplexor unit :=
  fun this =>
    let r := forOf method (_channels this) in
    mkRun {| _channels := final r |} (trace r) (outcome r).

Definition onResponseMessage (message : Message) (data : Data) : M CRDPMultiplexor unit :=
  let! this := get in
  match msg_id message with
  | Some encodifiedId =>
      let channelId := decodifyChannelId encodifiedId in
      match array_get (_channels this) channelId with
      | Some _ =>
          let message := set_id message (decodifyId encodifiedId) in
          let data := JSON_stringify message in
          onChannel (Z.to_nat channelId) (callMessageCallbacks data)
      | None => throwCriticalError (NoChannelFor (Some encodifiedId) data)
      end
  | None =>                               (* [_channels[NaN]] is [undefined] *)
      throwCriticalError (NoChannelFor None data)
  end.

Definition onDomainNotification (message : Message) (data : Data) : M CRDPMultiplexor unit :=
  match msg_method message with
  | Some method =>
      let! domain := extractDomain method in
      forOfChannels (callDomainMessageCallbacks domain data)
  | None => throw TypeError               (* [undefined.split] *)
  end.

(** Truthiness of [message.method]: present and not the empty string. *)
Definition hasMethod (message : Message) : bool :=
  match msg_method message with
  | Some EmptyString => false
  | Some _ => true
  | None => false
  end.

Definition onMessage (data : Data) : M CRDPMultiplexor unit :=
  let message := JSON_parse data in
  match msg_id message with
  | Some _ => onResponseMessage message data
  | None =>
      if hasMethod message then onDomainNotification message data
      else throwCriticalError (NoIdNorMethod data)
  end.

Definition addChannel (channelName : string) : M CRDPMultiplexor CRDPChannel :=
  let! this := get in
  if (10 <=? length (_channels this))%nat then throw OnlyTenChannels
  else
    let channel := newChannel channelName (Z.of_nat (length (_channels this))) in
    put {| _channels := (_channels this ++ [channel])%list |} ;;;
    ret channel.

Definition addListenerOfNonMultiplexedEvent (event : string) (cb : Callback)
    : M CRDPMultiplexor unit :=
  emit (SocketOn event cb).

Definition removeListenerOfNonMultiplexedEvent (event : string) (cb : Callback)
    : M CRDPMultiplexor unit :=
  emit (SocketRemoveListener event cb).

(** ** What the outside world can do, and observations on traces *)

(** The calls a client, the socket or the timer queue can make. *)
Inductive Call :=
| AddChannel (channelName : string)
| Send (channel : nat) (messageData : Data)
| On (channel : nat) (event : string) (cb : Callback)
| RemoveListener (channel : nat) (event : string) (cb : Callback)
| SocketMessage (data : Data)
| TimerFires (channel : nat).

Definition call (c : Call) : M CRDPMultiplexor unit :=
  match c with
  | AddChannel channelName => addChannel channelName ;;; ret tt
  | Send channel messageData => onChannel channel (CRDPChannel_send messageData)
  | On channel event cb => onChannel channel (CRDPChannel_on event cb)
  | RemoveListener channel event cb =>
      onChannel channel (CRDPChannel_removeListener event cb)
  | SocketMessage data => onMessage data
  | TimerFires channel => onChannel channel discardUnsentPendingMessages
  end.

(** A run of calls from the event loop: a call that throws ends where it
    threw and the loop goes on with the next one. *)
Fixpoint calls (cs : list Call) (this : CRDPMultiplexor) : CRDPMultiplexor * list Effect :=
  match cs with
  | [] => (this, [])
  | c :: rest =>
      let r := call c this in
      let '(this', t) := calls rest (final r) in
      (this', (trace r ++ t)%list)
  end.

(** Listener invocations of a trace, in order. *)
Definition deliveries (t : list Effect) : list (Z * Callback * Data) :=
  omap (fun e => match e with
                 | Invoke channelId cb data => Some (channelId, cb, data)
                 | _ => None
                 end) t.

(** Listener invocations made on behalf of one channel. *)
Definition deliveriesTo (channelId : Z) (t : list Effect) : list (Callback * Data) :=
  omap (fun e => match e with
                 | Invoke c cb data =>
                     if (c =? channelId)%Z then Some (cb, data) else None
                 | _ => None
                 end) t.

(** Texts written to the socket. *)
Definition written (t : list Effect) : list Data :=
  omap (fun e => match e with SocketSend data => Some data | _ => None end) t.

(** Discard timers armed: the id of the channel and the delay of each. *)
Definition timersArmed (t : list Effect) : list (Z * Z) :=
  omap (fun e => match e with
                 | SetTimeout channelId millis => Some (channelId, millis)
                 | _ => None
                 end) t.

(** Whether a call registers a ['message'] listener on a channel that has
    none at that moment, and on which channel. *)
Definition registersOnEmpty (c : Call) (this : CRDPMultiplexor) : option Z :=
  match c with
  | On channel event _ =>
      if String.eqb event "message" then
        match _channels this !! channel with
        | Some object =>
            match _messageCallbacks object with
            | [] => Some (id object)
            | _ :: _ => None
            end
        | None => None
        end
      else None
  | _ => None
  end.



(** The registry invariant: ids are the positions, at most ten channels. *)
Definition registry_ok (this : CRDPMultiplexor) : Prop :=
  map id (_channels this) = map Z.of_nat (seq 0 (length (_channels this)))
  /\ (length (_channels this) <= 10)%nat.

(** ** Descriptions used in the statements

    Closed forms of what single methods do, and a few concrete states. *)

(** What a channel that has not enabled [domain] keeps of a notification. *)
Definition stored (domain : string) (messageData : Data) (this : CRDPChannel) : CRDPChannel :=
  match _pendingMessagesForDomain this with
  | Some pending =>
      set_pendingMessagesForDomain
        (Some (<[domain := (default [] (pending !! domain) ++ [messageData])%list]> pending))
        this
  | None => this
  end.

(** What one channel does with a notification for [domain]. *)
Definition notified (domain : string) (data : Data) (channel : CRDPChannel) : CRDPChannel :=
  if domainEnabled channel domain then channel else stored domain data channel.

Definition notifiedTrace (domain : string) (data : Data) (channel : CRDPChannel)
    : list Effect :=
  if domainEnabled channel domain
  then map (fun cb => Invoke (id channel) cb data) (_messageCallbacks channel)
  else [].

(** The three ways [CRDPChannel.send] can begin, by the method of the
    message: no enable method, an enable method of a domain, an enable
    method that has not two parts. *)
Inductive EnableShape :=
| NotEnable
| EnableFor (domain : string)
| EnableMalformed (method : string).

Definition enableShape (method : option string) : EnableShape :=
  match method with
  | Some m =>
      if endsWith m ".enable" then
        match split "." m with
        | [domain; _] => EnableFor domain
        | _ => EnableMalformed m
        end
      else NotEnable
  | None => NotEnable
  end.

Definition marked (domain : string) (this : CRDPChannel) : CRDPChannel :=
  set_enabledDomains (<[domain := true]> (_enabledDomains this)) this.

(** The second half of [CRDPChannel.send]: hand the text to the
    multiplexor, then flush when a domain was marked. *)
Definition forwarded (messageData : Data) (domain : option string) (this : CRDPChannel)
    : Run CRDPChannel unit :=
  match msg_id messageData with
  | Some n =>
      let flush :=
        match domain with
        | Some d => sendUnsentPendingMessages d this
        | None => mkRun this [] (Returned tt)
        end in
      mkRun (final flush)
            (SocketSend (set_id messageData (encodifyChannel (id this) n)) :: trace flush)
            (outcome flush)
  | None =>
      mkRun this [LogError (SentWithoutId (name this) messageData)]
            (Thrown (CriticalError (SentWithoutId (name this) messageData)))
  end.

(** A channel method keeps the channel's [id] (the field is never
    assigned after construction). *)
Definition keepsId (method : M CRDPChannel unit) : Prop :=
  forall this, id (final (method this)) = id this.

(** Two channels with one listener each, as in scenario A of the design. *)
Definition twoChannels : CRDPMultiplexor :=
  fst (calls [AddChannel "a"; AddChannel "b"; On 0 "message" 7; On 1 "message" 8]
             newMultiplexor).

(** Three channels with a listener each: channel 0 has enabled
    [Debugger], channel 1 has not, channel 2 has lost its buffer. *)
Definition threeChannels : CRDPMultiplexor :=
  fst (calls [AddChannel "a"; AddChannel "b"; AddChannel "c";
              On 0 "message" 7; On 1 "message" 8; On 2 "message" 9;
              Send 0 (mkMessage (Some 1%Z) (Some "Debugger.enable") EmptyString);
              TimerFires 2]
             newMultiplexor).

(** A channel that got its first listener, whose timer then fired. *)
Definition discardedChannel : CRDPChannel :=
  final (discardUnsentPendingMessages
           (final (CRDPChannel_on "message" 7 (newChannel "c" 0)))).

(** * The remote path test of the same file

    [isInternalRemotePath] is the one function of the remote path mapper
    that uses nothing but strings.  The regular expression it builds,
    [[a-zA-Z]:[\/\\]__vscode-remote-uri__], is searched anywhere in the
    path. *)

Definition remoteUriScheme : string := "vscode-remote".
Definition remotePathComponent : string := "__vscode-remote-uri__".

(** [s.startsWith(prefix)] *)
Fixpoint startsWith (s prefix : string) : bool :=
  match prefix, s with
  | EmptyString, _ => true
  | String p prefix', String c s' => Ascii.eqb c p && startsWith s' prefix'
  | String _ _, EmptyString => false
  end.

(** The class [[a-zA-Z]]. *)
Definition isAsciiLetter (c : ascii) : bool :=
  let n := nat_of_ascii c in
  ((65 <=? n) && (n <=? 90) || (97 <=? n) && (n <=? 122))%nat.

(** The class [[\/\\]]: a slash or a backslash. *)
Definition isSlash (c : ascii) : bool := Ascii.eqb c "/" || Ascii.eqb c "\".

(** The expression [[a-zA-Z]:[\/\\]__vscode-remote-uri__] matched at the
    first character of [s]. *)
Definition driveComponentHere (s : string) : bool :=
  match s with
  | String letter (String colon (String slash rest)) =>
      isAsciiLetter letter && Ascii.eqb colon ":" && isSlash slash
      && startsWith rest remotePathComponent
  | _ => false
  end.

(** [!!path.match(new RegExp(...))]: a match at some position. *)
Fixpoint driveComponentSomewhere (s : string) : bool :=
  driveComponentHere s ||
  match s with
  | EmptyString => false
  | String _ rest => driveComponentSomewhere rest
  end.

Definition isInternalRemotePath (path : string) : bool :=
  startsWith path ("/" ++ remotePathComponent) || driveComponentSomewhere path.

(** A text that holds a drive letter, a colon, a slash or backslash and
    the marker of remote paths, in this order and without gap. *)
Definition holdsDriveComponent (before : string) (s : string) : Prop :=
  exists letter slash rest,
    isAsciiLetter letter = true
    /\ (slash = "/"%char \/ slash = "\"%char)
    /\ s = before ++ String letter (String ":" (String slash (remotePathComponent ++ rest))).

(** * The request/response socket of [webkit/webKitConnection.ts]

    The part modelled is the bookkeeping of requests: the table of pending
    requests of [ResReqWebSocket] and the id counter of
    [WebKitConnection].  A promise is known by the identity of its
    [resolve] function.  What happens later, on another turn of the event
    loop, is recorded as an effect: the text handed to the web socket once
    it is attached, the rejection of a promise whose executor threw. *)

Definition Resolver := nat.

Inductive WsEffect :=
| SendOnceAttached (text : Data)        (* [_wsAttached.then(ws => ws.send(msgStr))] *)
| RejectedByTypeError (resolve : Resolver) (* [undefined.then] in the executor *)
| Resolve (resolve : Resolver) (message : Message)
| ConsoleError (id : Z)
| Emit (event : string) (params : string).

Record ResReqWebSocket := mkResReqWebSocket {
  _pendingRequests : gmap Z Resolver;
  _wsAttached : bool                    (* whether [attach] has set the promise *)
}.

Definition newResReqWebSocket : ResReqWebSocket :=
  {| _pendingRequests := ∅; _wsAttached := false |}.

(** Of [attach(wsUrl)], the assignment [this._wsAttached = new Promise(...)]. *)
Definition ResReqWebSocket_attach (this : ResReqWebSocket) : ResReqWebSocket :=
  {| _pendingRequests := _pendingRequests this; _wsAttached := true |}.

(** [sendMessage(message)]; [requestId] is [message.id], which the type
    of [message] promises, and [resolve] is the resolver of the promise
    returned.  The request is entered in the table before anything else. *)
Definition ResReqWebSocket_sendMessage (message : Message) (requestId : Z)
    (resolve : Resolver) (this : ResReqWebSocket) : ResReqWebSocket * list WsEffect :=
  let this' :=
    {| _pendingRequests := <[requestId := resolve]> (_pendingRequests this);
       _wsAttached := _wsAttached this |} in
  if _wsAttached this
  then (this', [SendOnceAttached (JSON_stringify message)])
  else (this', [RejectedByTypeError resolve]).

(** Truthiness of [message.id]: present and not zero. *)
Definition truthyId (message : Message) : option Z :=
  match msg_id message with
  | Some n => if (n =? 0)%Z then None else Some n
  | None => None
  end.

Definition ResReqWebSocket_onMessage (message : Message) (this : ResReqWebSocket)
    : ResReqWebSocket * list WsEffect :=
  match truthyId message with
  | Some n =>
      match _pendingRequests this !! n with
      | Some resolve =>
          ({| _pendingRequests := delete n (_pendingRequests this);
              _wsAttached := _wsAttached this |},
           [Resolve resolve message])
      | None => (this, [ConsoleError n])
      end
  | None =>
      match msg_method message with
      | Some method =>
          if String.eqb method EmptyString then (this, [])
          else (this, [Emit method (msg_rest message)])
      | None => (this, [])
      end
  end.

Record WebKitConnection := mkWebKitConnection {
  _nextId : Z;
  _socket : ResReqWebSocket
}.

Definition newWebKitConnection : WebKitConnection :=
  {| _nextId := 1; _socket := newResReqWebSocket |}.

(** [sendMessage(method, params)]: the request takes the next id. *)
Definition WebKitConnection_sendMessage (method params : string) (resolve : Resolver)
    (this : WebKitConnection) : WebKitConnection * list WsEffect :=
  let requestId := _nextId this in
  let message := mkMessage (Some requestId) (Some method) params in
  let '(socket, effects) :=
    ResReqWebSocket_sendMessage message requestId resolve (_socket this) in
  ({| _nextId := (requestId + 1)%Z; _socket := socket |}, effects).

(** What can happen to a connection: a request of the client, the socket
    being attached, a message from the target.  The [Debugger.enable]
    request that [WebKitConnection.attach] makes once the socket is
    attached is a [Request] like any other. *)
Inductive WsCall :=
| Request (method params : string) (resolve : Resolver)
| Attach
| FromTarget (message : Message).

Definition wsCall (c : WsCall) (this : WebKitConnection)
    : WebKitConnection * list WsEffect :=
  match c with
  | Request method params resolve =>
      WebKitConnection_sendMessage method params resolve this
  | Attach =>
      ({| _nextId := _nextId this; _socket := ResReqWebSocket_attach (_socket this) |}, [])
  | FromTarget message =>
      let '(socket, effects) := ResReqWebSocket_onMessage message (_socket this) in
      ({| _nextId := _nextId this; _socket := socket |}, effects)
  end.

Fixpoint wsCalls (cs : list WsCall) (this : WebKitConnection)
    : WebKitConnection * list WsEffect :=
  match cs with
  | [] => (this, [])
  | c :: rest =>
      let '(next, effects) := wsCall c this in
      let '(last, effects') := wsCalls rest next in
      (last, (effects ++ effects')%list)
  end.

(** ** [getUrlWithRetry]

    [getUrl] either resolves with the body it read or rejects, always with
    the same reason.  The network decides each attempt; [answers k] is
    what the attempt number [k] gets. *)

Definition cannotConnect : string := "Cannot connect to the target".

Inductive Settled :=
| Resolved (body : string)
| Rejected (reason : string).

Definition getUrl (answers : nat -> option string) (attempt : nat) : Settled :=
  match answers attempt with
  | Some body => Resolved body
  | None => Rejected cannotConnect
  end.

(** [getUrlWithRetry(url, retryCount)], started at attempt number
    [attempt]: the promise it settles to and the waits of 200 ms it made
    on the way. *)
Fixpoint getUrlWithRetry (answers : nat -> option string) (attempt : nat)
    (retryCount : nat) : Settled * list Z :=
  match getUrl answers attempt with
  | Resolved body => (Resolved body, [])
  | Rejected e =>
      match retryCount with
      | S fewer =>
          let '(settled, waits) := getUrlWithRetry answers (S attempt) fewer in
          (settled, 200%Z :: waits)
      | O => (Rejected e, [])
      end
  end.

(** Requests made among some calls. *)
Definition requestsMade (cs : list WsCall) : nat :=
  length (List.filter (fun c => match c with Request _ _ _ => true | _ => false end) cs).

(** Every pending request has an id the connection has already given
    out: at least 1 and below [_nextId]. *)
Definition pendingBelowNext (this : WebKitConnection) : Prop :=
  (1 <= _nextId this)%Z
  /\ forall n resolve,
       _pendingRequests (_socket this) !! n = Some resolve ->
       (1 <= n < _nextId this)%Z.

(** ** Descriptions used in the further properties *)

(** What a later state of a channel object keeps of an earlier one: its
    id and name, every enabled domain, and a discarded buffer. *)
Definition succeeds (later earlier : CRDPChannel) : Prop :=
  id later = id earlier
  /\ name later = name earlier
  /\ (forall domain,
        domainEnabled earlier domain = true -> domainEnabled later domain = true)
  /\ (_pendingMessagesForDomain earlier = None ->
      _pendingMessagesForDomain later = None).

(** The channel a call is made on, for the calls made on a channel. *)
Definition targetOf (c : Call) : option nat :=
  match c with
  | Send channel _ | On channel _ _ | RemoveListener channel _ _
  | TimerFires channel => Some channel
  | AddChannel _ | SocketMessage _ => None
  end.

(** * Properties *)

(** A number given in digits is a safe integer. *)
Ltac in_safe_range := split; vm_compute; discriminate.

(** [hasMethod] answered [true], so there is a method. *)
Ltac method_is_present Eh Em :=
  unfold hasMethod in Eh; rewrite Em in Eh; discriminate.

(** ** Strings *)

Lemma split_length sep s : length (split sep s) = S (occurrences sep s).
Proof.
  induction s as [|c s IH]; simpl; [reflexivity|].
  destruct (Ascii.eqb c sep); simpl; [now rewrite IH|].
  destruct (split sep s); simpl in *; lia.
Qed.

Lemma split_without_separator sep s :
  occurrences sep s = 0%nat -> split sep s = [s].
Proof.
  induction s as [|c s IH]; simpl; [reflexivity|].
  destruct (Ascii.eqb c sep); simpl; [discriminate|].
  intros H. now rewrite (IH H).
Qed.

Lemma split_at_first_separator sep d rest :
  occurrences sep d = 0%nat ->
  split sep (d ++ String sep rest) = d :: split sep rest.
Proof.
  induction d as [|c d IH]; simpl.
  - intros _. now rewrite Ascii.eqb_refl.
  - destruct (Ascii.eqb c sep); simpl; [discriminate|].
    intros H. now rewrite (IH H).
Qed.

Lemma endsWith_refl s : endsWith s s = true.
Proof. destruct s; simpl; [reflexivity|]. now rewrite Ascii.eqb_refl, String.eqb_refl. Qed.

Lemma endsWith_append d suffix : endsWith (d ++ suffix) suffix = true.
Proof.
  induction d as [|c d IH]; simpl.
  - apply endsWith_refl.
  - rewrite IH. apply orb_true_r.
Qed.

(** The method [D.enable] of a domain name without dot is an enable method
    and its domain is [D]. *)
Lemma enable_method_shape D :
  occurrences "." D = 0%nat ->
  endsWith (D ++ ".enable") ".enable" = true
  /\ split "." (D ++ ".enable") = [D; "enable"].
Proof.
  intros H. split; [apply endsWith_append|].
  now rewrite (split_at_first_separator "." D "enable" H).
Qed.

(** ** Arrays *)

Lemma indexOf_absent (array : list Callback) x :
  x ∉ array -> indexOf array x = (-1)%Z.
Proof.
  intros H. unfold indexOf.
  destruct (list_find (fun y => y = x) array) as [[i y]|] eqn:E; [|reflexivity].
  apply list_find_Some in E as (Hi & -> & _).
  exfalso. apply H. eapply list_elem_of_lookup_2, Hi.
Qed.

Lemma delete_last {A} (older : list A) latest :
  delete (length older) (older ++ [latest])%list = older.
Proof. induction older as [|x older IH]; simpl; [reflexivity|]. now rewrite IH. Qed.

Lemma splice1_minus_one {A} (older : list A) latest :
  splice1 (older ++ [latest])%list (-1) = older.
Proof.
  unfold splice1. rewrite length_app. simpl.
  replace (Z.to_nat _) with (length older) by lia.
  apply delete_last.
Qed.

(** ** Observations on traces *)

Lemma timersArmed_app t1 t2 :
  timersArmed (t1 ++ t2)%list = (timersArmed t1 ++ timersArmed t2)%list.
Proof. apply omap_app. Qed.

Lemma deliveries_app t1 t2 :
  deliveries (t1 ++ t2)%list = (deliveries t1 ++ deliveries t2)%list.
Proof. apply omap_app. Qed.

Lemma written_app t1 t2 : written (t1 ++ t2)%list = (written t1 ++ written t2)%list.
Proof. apply omap_app. Qed.

Lemma deliveriesTo_app channelId t1 t2 :
  deliveriesTo channelId (t1 ++ t2)%list =
  (deliveriesTo channelId t1 ++ deliveriesTo channelId t2)%list.
Proof. apply omap_app. Qed.

Section ListenerCalls.
(* The calls made to the listeners of one channel. *)
Variable channelId : Z.

Let invokeAll (cbs : list Callback) (data : Data) : list Effect :=
  map (fun cb => Invoke channelId cb data) cbs.

Lemma timersArmed_invokes data cbs : timersArmed (invokeAll cbs data) = [].
Proof. induction cbs as [|cb cbs IH]; [reflexivity | exact IH]. Qed.

Lemma written_invokes data cbs : written (invokeAll cbs data) = [].
Proof. induction cbs as [|cb cbs IH]; [reflexivity | exact IH]. Qed.

Lemma deliveries_invokes data cbs :
  deliveries (invokeAll cbs data) = map (fun cb => (channelId, cb, data)) cbs.
Proof. induction cbs as [|cb cbs IH]; [reflexivity|]. cbn. now f_equal. Qed.

Lemma deliveriesTo_invokes_same data cbs :
  deliveriesTo channelId (invokeAll cbs data) = map (fun cb => (cb, data)) cbs.
Proof.
  induction cbs as [|cb cbs IH]; [reflexivity|].
  cbn. rewrite Z.eqb_refl. cbn. now f_equal.
Qed.

Lemma deliveriesTo_invokes_other other data cbs :
  other <> channelId -> deliveriesTo other (invokeAll cbs data) = [].
Proof.
  intros Hne. induction cbs as [|cb cbs IH]; [reflexivity|].
  cbn. destruct (Z.eqb_spec channelId other) as [E|_]; [congruence | exact IH].
Qed.

(* Queued payloads handed to the listeners one after the other. *)
Variable cbs : list Callback.

Lemma timersArmed_replay messages :
  timersArmed (flat_map (invokeAll cbs) messages) = [].
Proof.
  induction messages as [|data messages IH]; [reflexivity|].
  cbn [flat_map]. now rewrite timersArmed_app, timersArmed_invokes, IH.
Qed.

Lemma written_replay messages : written (flat_map (invokeAll cbs) messages) = [].
Proof.
  induction messages as [|data messages IH]; [reflexivity|].
  cbn [flat_map]. now rewrite written_app, written_invokes, IH.
Qed.

Lemma deliveries_replay messages :
  deliveries (flat_map (invokeAll cbs) messages) =
  flat_map (fun data => map (fun cb => (channelId, cb, data)) cbs) messages.
Proof.
  induction messages as [|data messages IH]; [reflexivity|].
  cbn [flat_map]. now rewrite deliveries_app, deliveries_invokes, IH.
Qed.
End ListenerCalls.

(** ** The id codec *)

(** C1.  Inside the safe integer range, for a channel id [c] in [0 .. 9]
    and a request id [n >= 0], decoding [n * 10 + c] gives back both [c]
    and [n]. *)
Theorem decodify_encodifyChannel (c n : Z) :
  (0 <= c <= 9)%Z -> (0 <= n)%Z ->
  (encodifyChannel c n <= MAX_SAFE_INTEGER)%Z ->
  decodifyChannelId (encodifyChannel c n) = c
  /\ decodifyId (encodifyChannel c n) = n.
Proof.
  intros Hc Hn _. unfold decodifyChannelId, decodifyId, encodifyChannel. split.
  - rewrite Z.rem_mod_nonneg by lia.
    rewrite Z.add_comm, Z.mod_add by lia. apply Z.mod_small. lia.
  - rewrite Z.add_comm, Z.div_add by lia.
    rewrite Z.div_small by lia. lia.
Qed.

Lemma decodify_encodifyChannel_witness :
  decodifyChannelId (encodifyChannel 3 7) = 3%Z
  /\ decodifyId (encodifyChannel 3 7) = 7%Z.
Proof.
  apply (decodify_encodifyChannel 3 7); [lia | lia | vm_compute; discriminate].
Defined.

(** ** Running the methods

    Each method is characterised once by the run it produces; the claims
    below are read off these equations. *)

Lemma forEach_emit {S X} (f : X -> Effect) (array : list X) (s : S) :
  forEach (fun x => emit (f x)) array s = mkRun s (map f array) (Returned tt).
Proof.
  induction array as [|x array IH]; [reflexivity|].
  simpl. unfold bind at 1. simpl. now rewrite IH.
Qed.

Lemma callMessageCallbacks_run messageData this :
  callMessageCallbacks messageData this =
  mkRun this
        (map (fun cb => Invoke (id this) cb messageData) (_messageCallbacks this))
        (Returned tt).
Proof.
  unfold callMessageCallbacks, bind, get. simpl. now rewrite forEach_emit.
Qed.

Lemma domainEnabled_false this domain :
  domainEnabled this domain = false -> inheritedMember domain = false.
Proof.
  unfold domainEnabled. destruct (_enabledDomains this !! domain) as [[|]|]; auto.
  discriminate.
Qed.

Lemma callDomainMessageCallbacks_run domain messageData this :
  callDomainMessageCallbacks domain messageData this =
  if domainEnabled this domain
  then mkRun this
             (map (fun cb => Invoke (id this) cb messageData) (_messageCallbacks this))
             (Returned tt)
  else mkRun (stored domain messageData this) [] (Returned tt).
Proof.
  unfold callDomainMessageCallbacks, bind at 1, get. simpl.
  destruct (domainEnabled this domain) eqn:He.
  - rewrite callMessageCallbacks_run. reflexivity.
  - apply domainEnabled_false in He.
    unfold stored, storeMessageForLater, bind, get, put.
    destruct this as [nm i cbs enabled [pending|]]; simpl; [|reflexivity].
    destruct (pending !! domain); [reflexivity|]. rewrite He. reflexivity.
Qed.

Lemma forEach_enabled domain (messages : list Data) this :
  domainEnabled this domain = true ->
  forEach (fun data => callDomainMessageCallbacks domain data) messages this =
  mkRun this
        (flat_map (fun data =>
                     map (fun cb => Invoke (id this) cb data) (_messageCallbacks this))
                  messages)
        (Returned tt).
Proof.
  intros He. induction messages as [|data messages IH]; [reflexivity|].
  simpl. unfold bind. rewrite callDomainMessageCallbacks_run, He. simpl.
  now rewrite IH.
Qed.

Lemma sendUnsentPendingMessages_run domain this :
  domainEnabled this domain = true ->
  sendUnsentPendingMessages domain this =
  match _pendingMessagesForDomain this with
  | None => mkRun this [] (Thrown TypeError)
  | Some pending =>
      match pending !! domain, _messageCallbacks this with
      | Some messages, _ :: _ =>
          mkRun (set_pendingMessagesForDomain (Some (delete domain pending)) this)
                (LogSendingPending domain (length messages)
                 :: flat_map (fun data =>
                                map (fun cb => Invoke (id this) cb data)
                                    (_messageCallbacks this))
                             messages)
                (Returned tt)
      | None, _ :: _ =>
          if inheritedMember domain
          then mkRun this [LogSendingPendingOfMember domain] (Thrown TypeError)
          else mkRun this [] (Returned tt)
      | _, [] => mkRun this [] (Returned tt)
      end
  end.
Proof.
  intros He. unfold sendUnsentPendingMessages, bind at 1, get. simpl.
  destruct (_pendingMessagesForDomain this) as [pending|] eqn:Ep; [|reflexivity].
  destruct (pending !! domain) as [messages|].
  - destruct (_messageCallbacks this) as [|cb cbs] eqn:Ec; [reflexivity|].
    simpl. unfold bind, emit, put. simpl.
    rewrite forEach_enabled by exact He. simpl. now rewrite Ec.
  - destruct (_messageCallbacks this) as [|cb cbs], (inheritedMember domain);
      reflexivity.
Qed.

(** Sending [{id: n, method: "D.enable", ...}]: the domain is marked, the
    rewritten request goes to the socket, then the flush runs. *)
Lemma CRDPChannel_send_enable D n rest this :
  occurrences "." D = 0%nat ->
  let messageData := mkMessage (Some n) (Some (D ++ ".enable")) rest in
  let marked := set_enabledDomains (<[D := true]> (_enabledDomains this)) this in
  let flush := sendUnsentPendingMessages D marked in
  CRDPChannel_send messageData this =
  mkRun (final flush)
        (SocketSend (set_id messageData (encodifyChannel (id this) n)) :: trace flush)
        (outcome flush).
Proof.
  intros HD. destruct (enable_method_shape D HD) as [He Hs].
  unfold CRDPChannel_send, isEnableMethod, extractDomain. simpl.
  rewrite He, Hs. unfold bind, get, put, ret, emit, CRDPMultiplexor_send. simpl.
  reflexivity.
Qed.

(** ** The registry invariant *)

Lemma domainEnabled_marked D this :
  domainEnabled (set_enabledDomains (<[D := true]> (_enabledDomains this)) this) D = true.
Proof. unfold domainEnabled. simpl. now rewrite lookup_insert_eq. Qed.

Lemma sendUnsentPendingMessages_keepsId domain this :
  domainEnabled this domain = true ->
  id (final (sendUnsentPendingMessages domain this)) = id this.
Proof.
  intros He. rewrite sendUnsentPendingMessages_run by exact He.
  destruct (_pendingMessagesForDomain this) as [pending|]; [|reflexivity].
  destruct (pending !! domain), (_messageCallbacks this),
           (inheritedMember domain); reflexivity.
Qed.

#[local] Arguments sendUnsentPendingMessages : simpl never.

Lemma CRDPChannel_send_run messageData this :
  CRDPChannel_send messageData this =
  match enableShape (msg_method messageData) with
  | NotEnable => forwarded messageData None this
  | EnableFor domain => forwarded messageData (Some domain) (marked domain this)
  | EnableMalformed m =>
      mkRun this [LogError (NotTwoParts m)] (Thrown (CriticalError (NotTwoParts m)))
  end.
Proof.
  unfold CRDPChannel_send, enableShape, isEnableMethod, extractDomain, forwarded,
    marked, JSON_parse.
  destruct messageData as [[n|] [m|] rest]; cbn [msg_id msg_method]; try reflexivity.
  - destruct (endsWith m ".enable"); [|reflexivity].
    destruct (split "." m) as [|d [|e [|x parts]]]; reflexivity.
  - destruct (endsWith m ".enable"); [|reflexivity].
    destruct (split "." m) as [|d [|e [|x parts]]]; reflexivity.
Qed.

Lemma CRDPChannel_send_keepsId messageData : keepsId (CRDPChannel_send messageData).
Proof.
  intros this. rewrite CRDPChannel_send_run. unfold forwarded.
  destruct (enableShape _) as [|d|m]; [| |reflexivity];
    destruct (msg_id messageData); try reflexivity.
  cbn [final]. unfold marked.
  rewrite sendUnsentPendingMessages_keepsId by apply domainEnabled_marked.
  reflexivity.
Qed.

Lemma CRDPChannel_on_keepsId event cb : keepsId (CRDPChannel_on event cb).
Proof.
  intros this. unfold CRDPChannel_on, bind, get, put, emit, ret. simpl.
  destruct (String.eqb event "message"); [|reflexivity].
  destruct (length (_messageCallbacks this) =? 0)%nat; reflexivity.
Qed.

Lemma CRDPChannel_removeListener_keepsId event cb :
  keepsId (CRDPChannel_removeListener event cb).
Proof.
  intros this. unfold CRDPChannel_removeListener, bind, get, put, emit. simpl.
  destruct (String.eqb event "message"); reflexivity.
Qed.

Lemma discardUnsentPendingMessages_keepsId : keepsId discardUnsentPendingMessages.
Proof.
  intros this. unfold discardUnsentPendingMessages, bind, get, put, emit, throw. simpl.
  destruct (_pendingMessagesForDomain this); reflexivity.
Qed.

Lemma callDomainMessageCallbacks_keepsId domain messageData :
  keepsId (callDomainMessageCallbacks domain messageData).
Proof.
  intros this. rewrite callDomainMessageCallbacks_run.
  destruct (domainEnabled this domain); [reflexivity|].
  unfold stored. destruct (_pendingMessagesForDomain this); reflexivity.
Qed.

Lemma callMessageCallbacks_keepsId messageData : keepsId (callMessageCallbacks messageData).
Proof. intros this. now rewrite callMessageCallbacks_run. Qed.

Lemma onChannel_ids idx method this :
  keepsId method ->
  map id (_channels (final (onChannel idx method this))) = map id (_channels this).
Proof.
  intros Hk. unfold onChannel.
  destruct (_channels this !! idx) as [channel|] eqn:E; [|reflexivity].
  simpl. rewrite list_fmap_insert, Hk.
  apply list_insert_id. now rewrite list_lookup_fmap, E.
Qed.

Lemma forOf_ids method channels :
  keepsId method -> map id (final (forOf method channels)) = map id channels.
Proof.
  intros Hk. induction channels as [|channel rest IH]; [reflexivity|].
  simpl. destruct (outcome (method channel)); simpl; rewrite Hk; [|reflexivity].
  now rewrite IH.
Qed.

Lemma registry_ok_ids this this' :
  map id (_channels this') = map id (_channels this) ->
  registry_ok this -> registry_ok this'.
Proof.
  intros E [Hids Hlen].
  assert (length (_channels this') = length (_channels this)) as El
    by (rewrite <- (length_map id), E; apply length_map).
  unfold registry_ok. rewrite E, El. auto.
Qed.

Lemma addChannel_run channelName this :
  addChannel channelName this =
  if (10 <=? length (_channels this))%nat
  then mkRun this [] (Thrown OnlyTenChannels)
  else
    let channel := newChannel channelName (Z.of_nat (length (_channels this))) in
    mkRun {| _channels := (_channels this ++ [channel])%list |} [] (Returned channel).
Proof.
  unfold addChannel, bind, get. cbn [outcome final trace].
  destruct (10 <=? length (_channels this))%nat; reflexivity.
Qed.

Lemma addChannel_registry_ok channelName this :
  registry_ok this -> registry_ok (final (addChannel channelName this)).
Proof.
  intros [Hids Hlen]. rewrite addChannel_run.
  destruct (10 <=? length (_channels this))%nat eqn:E; [now split|].
  apply Nat.leb_gt in E. unfold registry_ok. simpl.
  rewrite length_app, map_app, Hids. simpl. split; [|lia].
  rewrite Nat.add_1_r, seq_S, map_app. reflexivity.
Qed.

(** A response: routed by the decoded channel id. *)
Lemma onResponseMessage_run message data this encodifiedId :
  msg_id message = Some encodifiedId ->
  onResponseMessage message data this =
  match array_get (_channels this) (decodifyChannelId encodifiedId) with
  | Some channel =>
      mkRun this
            (map (fun cb => Invoke (id channel) cb
                                   (set_id message (decodifyId encodifiedId)))
                 (_messageCallbacks channel))
            (Returned tt)
  | None =>
      mkRun this [LogError (NoChannelFor (Some encodifiedId) data)]
            (Thrown (CriticalError (NoChannelFor (Some encodifiedId) data)))
  end.
Proof.
  intros Hid. unfold onResponseMessage, bind at 1, get. cbn [outcome final trace].
  rewrite Hid.
  destruct (array_get (_channels this) (decodifyChannelId encodifiedId))
    as [channel|] eqn:E; [|reflexivity].
  unfold array_get in E.
  destruct (decodifyChannelId encodifiedId <? 0)%Z; [discriminate|].
  unfold onChannel. rewrite E, callMessageCallbacks_run. cbn [outcome final trace].
  rewrite (list_insert_id _ _ _ E). destruct this; reflexivity.
Qed.

Lemma forOf_callDomainMessageCallbacks domain data channels :
  forOf (callDomainMessageCallbacks domain data) channels =
  mkRun (map (notified domain data) channels)
        (flat_map (notifiedTrace domain data) channels)
        (Returned tt).
Proof.
  induction channels as [|channel rest IH]; [reflexivity|].
  cbn [forOf]. rewrite callDomainMessageCallbacks_run, IH.
  unfold notified, notifiedTrace. cbn [map flat_map].
  destruct (domainEnabled channel domain); reflexivity.
Qed.

(** A notification: broadcast when the method has two parts. *)
Lemma onDomainNotification_run message data method this :
  msg_method message = Some method ->
  onDomainNotification message data this =
  match split "." method with
  | [domain; _] =>
      mkRun {| _channels := map (notified domain data) (_channels this) |}
            (flat_map (notifiedTrace domain data) (_channels this))
            (Returned tt)
  | _ =>
      mkRun this [LogError (NotTwoParts method)]
            (Thrown (CriticalError (NotTwoParts method)))
  end.
Proof.
  intros Hm. unfold onDomainNotification, extractDomain. rewrite Hm.
  destruct (split "." method) as [|d [|e [|x parts]]]; try reflexivity.
  unfold bind, ret, forOfChannels. cbn [outcome final trace].
  rewrite forOf_callDomainMessageCallbacks. reflexivity.
Qed.

Lemma notified_id domain data channel : id (notified domain data channel) = id channel.
Proof.
  unfold notified, stored. destruct (domainEnabled channel domain); [reflexivity|].
  destruct (_pendingMessagesForDomain channel); reflexivity.
Qed.

Lemma onMessage_ids data this :
  map id (_channels (final (onMessage data this))) = map id (_channels this).
Proof.
  unfold onMessage, JSON_parse.
  destruct (msg_id data) as [n|] eqn:En.
  - rewrite (onResponseMessage_run _ _ _ _ En).
    destruct (array_get _ _); reflexivity.
  - destruct (hasMethod data) eqn:Eh; [|reflexivity].
    destruct (msg_method data) as [m|] eqn:Em.
    + rewrite (onDomainNotification_run _ _ _ _ Em).
      destruct (split "." m) as [|d [|e [|x parts]]]; try reflexivity.
      cbn [final _channels]. rewrite map_map.
      apply map_ext. intros c. apply notified_id.
    + method_is_present Eh Em.
Qed.

Lemma call_registry_ok c this :
  registry_ok this -> registry_ok (final (call c this)).
Proof.
  intros Hok. destruct c; simpl.
  - unfold bind. pose proof (addChannel_registry_ok channelName this Hok) as H.
    destruct (outcome (addChannel channelName this)); exact H.
  - eapply registry_ok_ids; [apply onChannel_ids, CRDPChannel_send_keepsId | exact Hok].
  - eapply registry_ok_ids; [apply onChannel_ids, CRDPChannel_on_keepsId | exact Hok].
  - eapply registry_ok_ids;
      [apply onChannel_ids, CRDPChannel_removeListener_keepsId | exact Hok].
  - eapply registry_ok_ids; [apply onMessage_ids | exact Hok].
  - eapply registry_ok_ids;
      [apply onChannel_ids, discardUnsentPendingMessages_keepsId | exact Hok].
Qed.

Lemma calls_registry_ok cs this :
  registry_ok this -> registry_ok (fst (calls cs this)).
Proof.
  revert this. induction cs as [|c cs IH]; intros this Hok; [exact Hok|].
  simpl. specialize (IH _ (call_registry_ok c this Hok)).
  destruct (calls cs (final (call c this))). exact IH.
Qed.

Lemma newMultiplexor_registry_ok : registry_ok newMultiplexor.
Proof. split; simpl; [reflexivity | lia]. Qed.

(** ** The channel registry *)

(** C8.  In any state the multiplexor can reach, the ids of the channels
    are [0 .. length-1] in creation order and there are at most ten; with
    ten channels [addChannel] throws and changes nothing; otherwise it
    registers, last, a channel whose id is the previous count. *)
Theorem addChannel_capacity_and_ids (cs : list Call) (channelName : string) :
  let this := fst (calls cs newMultiplexor) in
  let r := addChannel channelName this in
  registry_ok this
  /\ (length (_channels this) = 10%nat ->
      outcome r = Thrown OnlyTenChannels /\ final r = this /\ trace r = [])
  /\ (length (_channels this) <> 10%nat ->
      let channel := newChannel channelName (Z.of_nat (length (_channels this))) in
      outcome r = Returned channel
      /\ _channels (final r) = (_channels this ++ [channel])%list
      /\ registry_ok (final r)).
Proof.
  intros this r.
  assert (registry_ok this) as Hok
    by apply calls_registry_ok, newMultiplexor_registry_ok.
  split; [exact Hok|]. subst r.
  pose proof (addChannel_registry_ok channelName this Hok) as Hok'.
  rewrite addChannel_run in *. split; intros Hlen.
  - rewrite Hlen. auto.
  - destruct Hok as [_ Hle].
    destruct (10 <=? length (_channels this))%nat eqn:E.
    + apply Nat.leb_le in E. lia.
    + auto.
Qed.

(** Ten channels can be created, with ids [0 .. 9]; the eleventh request
    throws and ten remain. *)
Example eleventh_channel_refused :
  let names := ["c0"; "c1"; "c2"; "c3"; "c4"; "c5"; "c6"; "c7"; "c8"; "c9"] in
  let this := fst (calls (map AddChannel names) newMultiplexor) in
  map id (_channels this) = [0; 1; 2; 3; 4; 5; 6; 7; 8; 9]%Z
  /\ outcome (addChannel "c10" this) = Thrown OnlyTenChannels
  /\ length (_channels (final (addChannel "c10" this))) = 10%nat.
Proof. vm_compute. auto. Qed.

(** ** Listeners *)

(** C10.  On a channel with at least one ['message'] listener, removing a
    callback that was never registered removes the listener registered
    last: [indexOf] answers [-1] and [splice(-1, 1)] cuts the last entry. *)
Theorem removeListener_unknown_callback this older latest cb :
  _messageCallbacks this = (older ++ [latest])%list ->
  cb ∉ _messageCallbacks this ->
  CRDPChannel_removeListener "message" cb this =
  mkRun (set_messageCallbacks older this) [] (Returned tt).
Proof.
  intros Hl Habsent.
  unfold CRDPChannel_removeListener, bind, get, put. cbn.
  rewrite (indexOf_absent _ _ Habsent), Hl, splice1_minus_one. reflexivity.
Qed.

Lemma removeListener_unknown_callback_witness :
  CRDPChannel_removeListener "message" 9
    (set_messageCallbacks [1; 2] (newChannel "c" 0)) =
  mkRun (set_messageCallbacks [1] (set_messageCallbacks [1; 2] (newChannel "c" 0)))
        [] (Returned tt).
Proof.
  apply (removeListener_unknown_callback _ [1] 2 9); [reflexivity|].
  apply (bool_decide_unpack _). vm_compute. exact I.
Defined.

(** ** The discard timer *)

Lemma timersArmed_notified domain data channels :
  timersArmed (flat_map (notifiedTrace domain data) channels) = [].
Proof.
  induction channels as [|channel rest IH]; [reflexivity|].
  cbn [flat_map]. rewrite timersArmed_app, IH. unfold notifiedTrace.
  destruct (domainEnabled channel domain); [|reflexivity].
  now rewrite timersArmed_invokes.
Qed.

Lemma sendUnsentPendingMessages_timers domain this :
  domainEnabled this domain = true ->
  timersArmed (trace (sendUnsentPendingMessages domain this)) = [].
Proof.
  intros He. rewrite sendUnsentPendingMessages_run by exact He.
  destruct (_pendingMessagesForDomain this) as [pending|]; [|reflexivity].
  destruct (pending !! domain) as [messages|], (_messageCallbacks this) as [|cb cbs],
           (inheritedMember domain); try reflexivity.
  all: cbn [trace]; change (timersArmed (?e :: ?t)) with (timersArmed t);
    apply timersArmed_replay.
Qed.

Lemma CRDPChannel_send_timers messageData this :
  timersArmed (trace (CRDPChannel_send messageData this)) = [].
Proof.
  rewrite CRDPChannel_send_run. unfold forwarded.
  destruct (enableShape _) as [|d|m]; [| |reflexivity];
    destruct (msg_id messageData); try reflexivity.
  cbn [trace]. change (timersArmed (?e :: ?t)) with (timersArmed t).
  apply sendUnsentPendingMessages_timers, domainEnabled_marked.
Qed.

Lemma onMessage_timers data this : timersArmed (trace (onMessage data this)) = [].
Proof.
  unfold onMessage, JSON_parse.
  destruct (msg_id data) as [n|] eqn:En.
  - rewrite (onResponseMessage_run _ _ _ _ En).
    destruct (array_get _ _); [apply timersArmed_invokes | reflexivity].
  - destruct (hasMethod data) eqn:Eh; [|reflexivity].
    destruct (msg_method data) as [m|] eqn:Em.
    + rewrite (onDomainNotification_run _ _ _ _ Em).
      destruct (split "." m) as [|d [|e [|x parts]]]; try reflexivity.
      apply timersArmed_notified.
    + method_is_present Eh Em.
Qed.

Lemma CRDPChannel_on_run event cb this :
  CRDPChannel_on event cb this =
  if String.eqb event "message" then
    mkRun (set_messageCallbacks (_messageCallbacks this ++ [cb])%list this)
          match _messageCallbacks this with
          | [] => [SetTimeout (id this) timeToPreserveMessagesInMillis]
          | _ :: _ => []
          end
          (Returned tt)
  else mkRun this [SocketOn event cb] (Returned tt).
Proof.
  unfold CRDPChannel_on, bind, get, put, emit, ret. cbn [outcome final trace].
  destruct (String.eqb event "message"); [|reflexivity].
  destruct (_messageCallbacks this); reflexivity.
Qed.

(** X25.  What the guard [_messageCallbacks.length === 0] does.  A call
    arms a discard timer exactly when it registers a ['message'] listener
    on a channel that has no ['message'] listener at that moment; it then
    arms one timer, for that channel, of 60 * 1000 ms.  A registration on
    a channel that has a listener arms none, and neither does any other
    call. *)
Theorem timer_armed_by_registration_on_empty (c : Call) (this : CRDPMultiplexor) :
  timersArmed (trace (call c this)) =
  match registersOnEmpty c this with
  | Some channelId => [(channelId, 60 * 1000)%Z]
  | None => []
  end.
Proof.
  destruct c as [channelName|k data|k event cb|k event cb|data|k];
    cbn [call registersOnEmpty].
  - unfold bind. rewrite addChannel_run.
    destruct (10 <=? length (_channels this))%nat; reflexivity.
  - unfold onChannel. destruct (_channels this !! k); [|reflexivity].
    apply CRDPChannel_send_timers.
  - unfold onChannel. destruct (_channels this !! k) as [object|].
    + cbn [trace]. rewrite CRDPChannel_on_run.
      destruct (String.eqb event "message"); [|reflexivity].
      destruct (_messageCallbacks object); reflexivity.
    + destruct (String.eqb event "message"); reflexivity.
  - unfold onChannel. destruct (_channels this !! k) as [object|]; [|reflexivity].
    cbn [trace]. unfold CRDPChannel_removeListener, bind, get, put, emit.
    cbn [outcome final trace]. destruct (String.eqb event "message"); reflexivity.
  - apply onMessage_timers.
  - unfold onChannel. destruct (_channels this !! k) as [object|]; [|reflexivity].
    cbn [trace]. unfold discardUnsentPendingMessages, bind, get, put, emit, throw.
    cbn [outcome final trace]. destruct (_pendingMessagesForDomain object); reflexivity.
Qed.

(** C6 fails on the code.  The timer is meant to be armed once, at the
    first listener, but the guard looks at the current number of
    listeners: after the only listener of channel 0 is removed, the next
    registration arms a second 60-second timer for channel 0.  When the
    two timers fire, the first discards the buffer and the second throws
    a [TypeError] from [Object.keys(null)]. *)
Theorem discard_timer_armed_twice :
  let registrations :=
    calls [AddChannel "c"; On 0 "message" 1; RemoveListener 0 "message" 1;
           On 0 "message" 2] newMultiplexor in
  let firstFires := call (TimerFires 0) (fst registrations) in
  let secondFires := call (TimerFires 0) (final firstFires) in
  timersArmed (snd registrations) = [(0, 60000); (0, 60000)]%Z
  /\ outcome firstFires = Returned tt
  /\ outcome secondFires = Thrown TypeError.
Proof. vm_compute. auto. Qed.

(** ** Responses *)

Lemma registry_ok_lookup this k channel :
  registry_ok this -> _channels this !! k = Some channel -> id channel = Z.of_nat k.
Proof.
  intros [Hids _] Hk.
  assert (map id (_channels this) !! k = Some (id channel)) as H
    by (change (map id) with (fmap (M:=list) id); now rewrite list_lookup_fmap, Hk).
  rewrite Hids in H. change (map Z.of_nat) with (fmap (M:=list) Z.of_nat) in H.
  rewrite list_lookup_fmap in H.
  destruct (seq 0 (length (_channels this)) !! k) as [j|] eqn:E; [|discriminate].
  apply lookup_seq in E as [-> _]. simpl in H. now inversion H.
Qed.

Lemma registry_ok_NoDup this : registry_ok this -> NoDup (map id (_channels this)).
Proof.
  intros [Hids _]. rewrite Hids. apply (NoDup_fmap_2 Z.of_nat), NoDup_seq.
Qed.

Lemma array_get_Some {A} (array : list A) k x :
  array_get array k = Some x -> (0 <= k)%Z /\ array !! Z.to_nat k = Some x.
Proof.
  unfold array_get. destruct (k <? 0)%Z eqn:E; [discriminate|].
  apply Z.ltb_ge in E. auto.
Qed.

(** C2.  An inbound message with an id is a response; the id is a safe
    integer, as the design assumes of every id on the wire.  When the
    decoded channel id names a registered channel, the message is handed,
    with its id replaced by the decoded request id, to the listeners of
    that channel in registration order; nothing else happens, so no
    listener of another channel is called.  For an id that channel [c]
    encoded from its request id [n], the decoded id is [n].  When the
    decoded channel id names no channel, a critical error is logged and
    thrown. *)
Theorem response_goes_to_its_channel_only this data encodifiedId :
  registry_ok this ->
  msg_id data = Some encodifiedId ->
  safeInteger encodifiedId ->
  let c := decodifyChannelId encodifiedId in
  let r := onMessage data this in
  match array_get (_channels this) c with
  | Some channel =>
      id channel = c
      /\ outcome r = Returned tt
      /\ final r = this
      /\ trace r = map (fun cb => Invoke c cb (set_id data (decodifyId encodifiedId)))
                       (_messageCallbacks channel)
      /\ deliveriesTo c (trace r) =
         map (fun cb => (cb, set_id data (decodifyId encodifiedId)))
             (_messageCallbacks channel)
      /\ (forall other, other <> c -> deliveriesTo other (trace r) = [])
      /\ (forall n, (0 <= n)%Z -> encodifiedId = encodifyChannel c n ->
                    decodifyId encodifiedId = n)
  | None =>
      outcome r = Thrown (CriticalError (NoChannelFor (Some encodifiedId) data))
      /\ trace r = [LogError (NoChannelFor (Some encodifiedId) data)]
      /\ final r = this
  end.
Proof.
  intros Hok Hid _ c r. subst r. unfold onMessage, JSON_parse. rewrite Hid.
  rewrite (onResponseMessage_run _ _ _ _ Hid). fold c.
  destruct (array_get (_channels this) c) as [channel|] eqn:E; [|auto].
  apply array_get_Some in E as [Hc Hk].
  assert (id channel = c) as Hidc
    by (rewrite (registry_ok_lookup _ _ _ Hok Hk); lia).
  cbn [outcome final trace]. rewrite Hidc.
  repeat split.
  - apply deliveriesTo_invokes_same.
  - intros other Hne. now apply deliveriesTo_invokes_other.
  - intros n Hn He.
    assert (c < 10)%Z.
    { apply lookup_lt_Some in Hk. destruct Hok as [_ Hlen]. lia. }
    rewrite He. unfold encodifyChannel, decodifyId.
    rewrite Z.add_comm, Z.div_add by lia. rewrite Z.div_small by lia. lia.
Qed.

Lemma response_goes_to_its_channel_only_witness :
  let response := mkMessage (Some 10%Z) None "result" in
  trace (onMessage response twoChannels) =
  [Invoke 0 7 (mkMessage (Some 1%Z) None "result")].
Proof.
  intros response.
  assert (registry_ok twoChannels) as Hok
    by (split; [reflexivity | vm_compute; lia]).
  assert (safeInteger 10) as Hsafe by in_safe_range.
  generalize (response_goes_to_its_channel_only twoChannels response 10%Z
                Hok eq_refl Hsafe).
  vm_compute. intros H. apply H.
Defined.

(** ** Sending without an id *)

(** C7, as the code has it.  A channel that sends a message without an id
    logs and throws a critical error; nothing is written to the socket, no
    listener is called, and the pending buffers, the listeners, the name
    and the id of the channel are as before.  The enabled domains are as
    before too, except for a message whose method ends in [.enable] and
    has two parts: its domain has been marked enabled before the send
    failed. *)
Theorem send_without_id this messageData :
  msg_id messageData = None ->
  let r := CRDPChannel_send messageData this in
  (exists c, outcome r = Thrown (CriticalError c) /\ trace r = [LogError c])
  /\ written (trace r) = []
  /\ deliveries (trace r) = []
  /\ _pendingMessagesForDomain (final r) = _pendingMessagesForDomain this
  /\ _messageCallbacks (final r) = _messageCallbacks this
  /\ name (final r) = name this
  /\ id (final r) = id this
  /\ _enabledDomains (final r) =
     match enableShape (msg_method messageData) with
     | EnableFor domain => <[domain := true]> (_enabledDomains this)
     | _ => _enabledDomains this
     end.
Proof.
  intros Hid r. subst r. rewrite CRDPChannel_send_run. unfold forwarded.
  rewrite Hid.
  destruct (enableShape (msg_method messageData)) as [|domain|m];
    cbn [outcome final trace]; repeat split; eauto.
Qed.

Lemma send_without_id_witness :
  let notification := mkMessage None (Some "Debugger.paused") "params" in
  final (CRDPChannel_send notification (newChannel "c" 0)) = newChannel "c" 0
  /\ written (trace (CRDPChannel_send notification (newChannel "c" 0))) = [].
Proof.
  intros notification.
  destruct (send_without_id (newChannel "c" 0) notification eq_refl)
    as (_ & Hw & _).
  split; [reflexivity | exact Hw].
Defined.

(** C7 fails as stated: an enable message without an id is refused, but
    its domain stays marked as enabled on the channel. *)
Lemma send_without_id_marks_domain :
  let this := newChannel "c" 0 in
  let messageData := mkMessage None (Some "Debugger.enable") EmptyString in
  let r := CRDPChannel_send messageData this in
  outcome r = Thrown (CriticalError (SentWithoutId "c" messageData))
  /\ written (trace r) = []
  /\ _enabledDomains this !! "Debugger" = None
  /\ _enabledDomains (final r) !! "Debugger" = Some true.
Proof. vm_compute. auto. Qed.

(** ** Notifications *)

Lemma deliveriesTo_notified_other domain data channel other :
  other <> id channel ->
  deliveriesTo other (notifiedTrace domain data channel) = [].
Proof.
  intros Hne. unfold notifiedTrace.
  destruct (domainEnabled channel domain); [|reflexivity].
  now apply deliveriesTo_invokes_other.
Qed.

Lemma deliveriesTo_notified_absent domain data channels other :
  other ∉ map id channels ->
  deliveriesTo other (flat_map (notifiedTrace domain data) channels) = [].
Proof.
  induction channels as [|channel rest IH]; intros Hne; [reflexivity|].
  cbn [flat_map]. rewrite deliveriesTo_app.
  cbn [map] in Hne. apply not_elem_of_cons in Hne as [Hne Hrest].
  now rewrite deliveriesTo_notified_other, IH.
Qed.

(** In a broadcast, what reaches the listeners of one channel is what
    that channel's own filter let through. *)
Lemma deliveriesTo_broadcast domain data channels k channel :
  NoDup (map id channels) ->
  channels !! k = Some channel ->
  deliveriesTo (id channel) (flat_map (notifiedTrace domain data) channels) =
  deliveriesTo (id channel) (notifiedTrace domain data channel).
Proof.
  revert k. induction channels as [|head rest IH]; intros k Hnd Hk; [discriminate|].
  cbn [map] in Hnd. apply NoDup_cons in Hnd as [Hhead Hnd].
  cbn [flat_map]. rewrite deliveriesTo_app. destruct k as [|k]; cbn in Hk.
  - inversion Hk; subst head.
    rewrite deliveriesTo_notified_absent by exact Hhead. apply app_nil_r.
  - rewrite deliveriesTo_notified_other.
    + now apply (IH k).
    + intros E. apply Hhead. rewrite <- E.
      change (map id rest) with (fmap (M:=list) id rest).
      apply list_elem_of_fmap_2. eapply list_elem_of_lookup_2, Hk.
Qed.

Lemma hasMethod_with_dot message domain event :
  msg_method message = Some (domain ++ String "." event) ->
  hasMethod message = true.
Proof. intros H. unfold hasMethod. rewrite H. destruct domain; reflexivity. Qed.

(** C3 fails on the code.  A channel that has a listener, a live buffer
    and no enabled domain at all is sent the notification
    [constructor.paused]: its listener receives the payload at once and
    nothing is queued, because [this._enabledDomains["constructor"]] reads
    the member every object inherits.  The same holds for the other names
    of [objectPrototypeMembers]. *)
Theorem never_enabled_domain_is_delivered :
  let this := fst (calls [AddChannel "a"; On 0 "message" 7] newMultiplexor) in
  let data := mkMessage None (Some "constructor.paused") "params" in
  let r := onMessage data this in
  map _enabledDomains (_channels this) = [∅]
  /\ map _pendingMessagesForDomain (_channels this) = [Some ∅]
  /\ outcome r = Returned tt
  /\ deliveries (trace r) = [(0%Z, 7, data)]
  /\ map _pendingMessagesForDomain (_channels (final r)) = [Some ∅].
Proof. vm_compute. auto. Qed.

(** X23.  An inbound notification whose method is [Domain.Event] is
    offered to every registered channel and the handling returns normally.
    A channel for which [this._enabledDomains[Domain]] is truthy (it has
    enabled [Domain], or [Domain] names an inherited member) is left as
    it is and all its listeners receive the payload, in registration
    order.  Any other channel receives nothing: if its pending buffer is
    live the payload is appended to the queue of [Domain], and if the
    buffer was discarded the channel is left as it is. *)
Theorem notification_filtered_per_channel this data domain event :
  registry_ok this ->
  msg_id data = None ->
  msg_method data = Some (domain ++ String "." event) ->
  occurrences "." domain = 0%nat ->
  occurrences "." event = 0%nat ->
  let r := onMessage data this in
  outcome r = Returned tt
  /\ length (_channels (final r)) = length (_channels this)
  /\ forall k channel,
       _channels this !! k = Some channel ->
       exists channel',
         _channels (final r) !! k = Some channel'
         /\ if domainEnabled channel domain then
              channel' = channel
              /\ deliveriesTo (id channel) (trace r) =
                 map (fun cb => (cb, data)) (_messageCallbacks channel)
            else
              deliveriesTo (id channel) (trace r) = []
              /\ match _pendingMessagesForDomain channel with
                 | Some pending =>
                     channel' =
                     set_pendingMessagesForDomain
                       (Some (<[domain := (default [] (pending !! domain) ++ [data])%list]>
                                pending))
                       channel
                 | None => channel' = channel
                 end.
Proof.
  intros Hok Hid Hm Hd He r. subst r.
  unfold onMessage, JSON_parse. rewrite Hid, (hasMethod_with_dot _ _ _ Hm).
  rewrite (onDomainNotification_run _ _ _ _ Hm).
  rewrite (split_at_first_separator "." domain event Hd).
  rewrite (split_without_separator "." event He).
  cbn [outcome final trace _channels]. split; [reflexivity|].
  split; [apply length_map|].
  intros k channel Hk. exists (notified domain data channel). split.
  - change (map (notified domain data)) with (fmap (M:=list) (notified domain data)).
    now rewrite list_lookup_fmap, Hk.
  - rewrite (deliveriesTo_broadcast _ _ _ k channel (registry_ok_NoDup _ Hok) Hk).
    unfold notified, notifiedTrace, stored.
    destruct (domainEnabled channel domain).
    + split; [reflexivity | apply deliveriesTo_invokes_same].
    + split; [reflexivity|].
      destruct (_pendingMessagesForDomain channel); reflexivity.
Qed.

Lemma notification_filtered_per_channel_witness :
  outcome (onMessage (mkMessage None (Some "Debugger.paused") "params") threeChannels)
  = Returned tt.
Proof.
  assert (registry_ok threeChannels) as Hok
    by (split; [reflexivity | vm_compute; lia]).
  destruct (notification_filtered_per_channel threeChannels
              (mkMessage None (Some "Debugger.paused") "params")
              "Debugger" "paused" Hok eq_refl eq_refl eq_refl eq_refl) as [H _].
  exact H.
Defined.

(** The three cases of C3 on that state: delivered to channel 0, queued by
    channel 1, dropped by channel 2. *)
Example notification_three_ways :
  let paused := mkMessage None (Some "Debugger.paused") "params" in
  let r := onMessage paused threeChannels in
  deliveries (trace r) = [(0%Z, 7%nat, paused)]
  /\ map (fun channel => (fun pending => pending !! "Debugger")
                           <$> _pendingMessagesForDomain channel)
         (_channels (final r))
     = [Some None; Some (Some [paused]); None].
Proof. vm_compute. auto. Qed.

(** ** Enabling a domain *)

(** C4 fails on the code.  A channel with a listener and a live, empty
    buffer sends [{id: 1, method: "constructor.enable"}]: the request is
    written to the socket, then the flush takes the member every object
    inherits for the queue of the domain, logs it and throws a
    [TypeError], since that member has no [forEach].  The same holds for
    the other names of [objectPrototypeMembers]. *)
Theorem enable_of_inherited_name_throws :
  let this := final (CRDPChannel_on "message" 7 (newChannel "c" 0)) in
  let messageData := mkMessage (Some 1%Z) (Some "constructor.enable") "params" in
  let r := CRDPChannel_send messageData this in
  _pendingMessagesForDomain this = Some ∅
  /\ _messageCallbacks this = [7]
  /\ outcome r = Thrown TypeError
  /\ trace r = [SocketSend (mkMessage (Some 10%Z) (Some "constructor.enable") "params");
                LogSendingPendingOfMember "constructor"].
Proof. vm_compute. auto. Qed.

(** X24.  For a domain [D] that is not the name of a member of
    [Object.prototype]: on a channel whose pending buffer is live, sending
    the request [{id: n, method: "D.enable"}] returns normally, writes the
    rewritten request to the socket and marks [D] enabled.  With at least
    one listener, every payload queued under [D] is then handed to every
    listener, payload after payload in arrival order and each once, and
    [D] has no queue any more.  With no listener nothing is delivered and
    the buffer is as before. *)
Theorem enable_flushes_pending_in_order this pending D n rest :
  occurrences "." D = 0%nat ->
  inheritedMember D = false ->
  _pendingMessagesForDomain this = Some pending ->
  let messageData := mkMessage (Some n) (Some (D ++ ".enable")) rest in
  let queued := default [] (pending !! D) in
  let r := CRDPChannel_send messageData this in
  outcome r = Returned tt
  /\ written (trace r) = [set_id messageData (encodifyChannel (id this) n)]
  /\ domainEnabled (final r) D = true
  /\ _messageCallbacks (final r) = _messageCallbacks this
  /\ match _messageCallbacks this with
     | _ :: _ =>
         deliveries (trace r) =
         flat_map (fun data => map (fun cb => (id this, cb, data)) (_messageCallbacks this))
                  queued
         /\ _pendingMessagesForDomain (final r) = Some (delete D pending)
         /\ delete D pending !! D = None
     | [] =>
         deliveries (trace r) = []
         /\ _pendingMessagesForDomain (final r) = Some pending
     end.
Proof.
  intros HD Hown Hp messageData queued r. subst r messageData queued.
  rewrite (CRDPChannel_send_enable D n rest this HD).
  rewrite sendUnsentPendingMessages_run by apply domainEnabled_marked.
  cbn [_pendingMessagesForDomain set_enabledDomains _messageCallbacks id].
  rewrite Hp, Hown.
  destruct (pending !! D) as [messages|] eqn:Eq,
           (_messageCallbacks this) as [|cb cbs] eqn:Ec;
    cbn [outcome final trace default];
    unfold domainEnabled;
    cbn [_enabledDomains _pendingMessagesForDomain _messageCallbacks
         set_enabledDomains set_pendingMessagesForDomain];
    rewrite ?lookup_insert_eq, ?Ec, ?Hp; repeat split;
    try apply lookup_delete_eq.
  - change (written (SocketSend ?x :: _ :: ?t)) with (x :: written t).
    now rewrite written_replay.
  - change (deliveries (_ :: _ :: ?t)) with (deliveries t).
    apply (deliveries_replay (id this) (cb :: cbs) messages).
  - now rewrite (delete_id _ _ Eq).
Qed.

Lemma enable_flushes_pending_in_order_witness :
  let p1 := mkMessage None (Some "Debugger.scriptParsed") "first" in
  let p2 := mkMessage None (Some "Debugger.paused") "second" in
  let this := mkChannel "c" 0 [7; 8] ∅ (Some {[ "Debugger" := [p1; p2] ]}) in
  let r := CRDPChannel_send (mkMessage (Some 2%Z) (Some "Debugger.enable") EmptyString) this in
  deliveries (trace r) = [(0%Z, 7, p1); (0%Z, 8, p1); (0%Z, 7, p2); (0%Z, 8, p2)]
  /\ _pendingMessagesForDomain (final r) = Some ∅.
Proof.
  intros p1 p2 this r.
  destruct (enable_flushes_pending_in_order this {[ "Debugger" := [p1; p2] ]}
              "Debugger" 2%Z EmptyString eq_refl eq_refl eq_refl)
    as (_ & _ & _ & _ & Hd & Hp & _).
  split; [exact Hd|].
  exact Hp.
Defined.

(** Scenario B of the design, end to end: two notifications arrive before
    any channel has enabled [Debugger]; channel 0 then enables it and its
    listener receives both, oldest first; channel 1 receives nothing. *)
Example buffered_then_flushed :
  let p1 := mkMessage None (Some "Debugger.scriptParsed") "first" in
  let p2 := mkMessage None (Some "Debugger.paused") "second" in
  let enable := mkMessage (Some 2%Z) (Some "Debugger.enable") EmptyString in
  deliveries (snd (calls [SocketMessage p1; SocketMessage p2; Send 0 enable] twoChannels))
  = [(0%Z, 7, p1); (0%Z, 7, p2)].
Proof. vm_compute. reflexivity. Qed.

(** C5 fails on the code.  On a channel whose pending buffer was
    discarded, sending [{id: n, method: "D.enable"}] writes the rewritten
    request to the socket and then throws a [TypeError]: the flush reads
    [this._pendingMessagesForDomain[domain]] without the test for [null]
    that [callDomainMessageCallbacks] makes. *)
Theorem enable_after_discard_throws this D n rest :
  occurrences "." D = 0%nat ->
  _pendingMessagesForDomain this = None ->
  let messageData := mkMessage (Some n) (Some (D ++ ".enable")) rest in
  let r := CRDPChannel_send messageData this in
  outcome r = Thrown TypeError
  /\ trace r = [SocketSend (set_id messageData (encodifyChannel (id this) n))]
  /\ domainEnabled (final r) D = true.
Proof.
  intros HD Hp messageData r. subst r messageData.
  rewrite (CRDPChannel_send_enable D n rest this HD).
  rewrite sendUnsentPendingMessages_run by apply domainEnabled_marked.
  cbn [_pendingMessagesForDomain set_enabledDomains]. rewrite Hp.
  cbn [outcome final trace]. repeat split. apply domainEnabled_marked.
Qed.

Lemma enable_after_discard_throws_witness :
  outcome (CRDPChannel_send (mkMessage (Some 1%Z) (Some "Debugger.enable") EmptyString)
                            discardedChannel)
  = Thrown TypeError.
Proof.
  destruct (enable_after_discard_throws discardedChannel "Debugger" 1%Z EmptyString
              eq_refl eq_refl) as [H _].
  exact H.
Defined.

(** ** Method names *)




(** * Further properties of the multiplexor *)

(** ** More on the id codec *)

(** X1.  Requests of two channels never meet on the wire as long as the
    encoded ids are safe integers: with channel ids in [0 .. 9] the
    encoded id then determines both the channel and the request id,
    whatever the sign of the request id. *)
Theorem encodifyChannel_injective (c c' n n' : Z) :
  (0 <= c <= 9)%Z -> (0 <= c' <= 9)%Z ->
  safeInteger (encodifyChannel c n) ->
  safeInteger (encodifyChannel c' n') ->
  encodifyChannel c n = encodifyChannel c' n' ->
  c = c' /\ n = n'.
Proof. unfold encodifyChannel. lia. Qed.

Lemma encodifyChannel_injective_witness : 4%Z = 4%Z /\ (-2)%Z = (-2)%Z.
Proof.
  apply (encodifyChannel_injective 4 4 (-2) (-2));
    [lia | lia | in_safe_range | in_safe_range | reflexivity].
Defined.

(** X2.  Every non-negative wire id that is a safe integer decodes to a
    channel id in [0 .. 9] and a non-negative request id, and encoding
    these gives the wire id back. *)
Theorem encodify_decodified (e : Z) :
  (0 <= e)%Z ->
  safeInteger e ->
  (0 <= decodifyChannelId e <= 9)%Z
  /\ (0 <= decodifyId e)%Z
  /\ encodifyChannel (decodifyChannelId e) (decodifyId e) = e.
Proof.
  intros He _. unfold decodifyChannelId, decodifyId, encodifyChannel.
  rewrite Z.rem_mod_nonneg by lia.
  pose proof (Z.mod_pos_bound e 10 ltac:(lia)).
  pose proof (Z.div_mod e 10 ltac:(lia)).
  pose proof (Z.div_pos e 10 He ltac:(lia)).
  lia.
Qed.

Lemma encodify_decodified_witness :
  (0 <= decodifyChannelId 47 <= 9)%Z
  /\ (0 <= decodifyId 47)%Z
  /\ encodifyChannel (decodifyChannelId 47) (decodifyId 47) = 47%Z.
Proof. apply (encodify_decodified 47); [lia | in_safe_range]. Defined.

(** X3.  A negative request id does not survive the codec on the channels
    [1 .. 9]: as long as its encoded id is a safe integer, the remainder
    of that id is negative, so a response that carries it finds no
    channel, in any state, and ends in a critical error with nothing
    delivered. *)
Theorem negative_request_id_is_not_routed this data (c n : Z) :
  (1 <= c <= 9)%Z -> (n < 0)%Z ->
  safeInteger (encodifyChannel c n) ->
  msg_id data = Some (encodifyChannel c n) ->
  let r := onMessage data this in
  outcome r = Thrown (CriticalError (NoChannelFor (Some (encodifyChannel c n)) data))
  /\ final r = this
  /\ deliveries (trace r) = [].
Proof.
  intros Hc Hn _ Hid r. subst r. unfold onMessage, JSON_parse. rewrite Hid.
  rewrite (onResponseMessage_run _ _ _ _ Hid).
  assert (decodifyChannelId (encodifyChannel c n) < 0)%Z as Hneg.
  { unfold decodifyChannelId, encodifyChannel.
    assert (n * 10 + c < 0)%Z as Hlt by lia.
    pose proof (Z.rem_bound_pos_neg (n * 10 + c) 10 eq_refl ltac:(lia)) as Hb.
    assert (Z.rem (n * 10 + c) 10 <> 0)%Z; [|lia].
    rewrite Z.rem_divide by lia. intros [q Hq]. lia. }
  unfold array_get. apply Z.ltb_lt in Hneg. rewrite Hneg. auto.
Qed.

Lemma negative_request_id_is_not_routed_witness :
  outcome (onMessage (mkMessage (Some (-7)%Z) None "result") twoChannels)
  = Thrown (CriticalError
              (NoChannelFor (Some (-7)%Z) (mkMessage (Some (-7)%Z) None "result"))).
Proof.
  destruct (negative_request_id_is_not_routed twoChannels
              (mkMessage (Some (-7)%Z) None "result") 3 (-1)
              ltac:(lia) ltac:(lia) ltac:(in_safe_range) eq_refl) as [H _].
  exact H.
Defined.

(** ** Which methods have a domain *)

Lemma split_two_parts sep s d e :
  split sep s = [d; e] ->
  s = d ++ String sep e /\ occurrences sep d = 0%nat /\ occurrences sep e = 0%nat.
Proof.
  revert d. induction s as [|c s IH]; intros d H; simpl in H; [discriminate|].
  simpl. destruct (Ascii.eqb_spec c sep) as [->|Hne].
  - inversion H as [[Hd Hs]]. subst d.
    pose proof (split_length sep s) as Hl. rewrite Hs in Hl. simpl in Hl.
    assert (occurrences sep s = 0%nat) as H0 by lia.
    rewrite (split_without_separator _ _ H0) in Hs. inversion Hs; subst e.
    simpl. auto.
  - destruct (split sep s) as [|p ps] eqn:Es; [discriminate|].
    inversion H; subst d ps.
    destruct (IH p eq_refl) as (-> & Hp & He).
    simpl. destruct (Ascii.eqb_spec c sep); [contradiction|]. auto.
Qed.

(** X4.  [extractDomain] answers [d] exactly for the methods [d.e] in which
    neither [d] nor [e] holds a dot; both may be empty.  For every other
    method it throws. *)
Theorem extractDomain_accepts (method d : string) (this : CRDPMultiplexor) :
  outcome (extractDomain method this) = Returned d
  <-> exists e, method = d ++ String "." e
                /\ occurrences "." d = 0%nat /\ occurrences "." e = 0%nat.
Proof.
  unfold extractDomain. split.
  - destruct (split "." method) as [|d' [|e [|x parts]]] eqn:Es;
      try (cbn; discriminate).
    cbn. intros H. inversion H; subst d'. exists e. now apply split_two_parts.
  - intros (e & -> & Hd & He).
    rewrite (split_at_first_separator "." d e Hd).
    now rewrite (split_without_separator "." e He).
Qed.

(** ** Messages that are neither response nor notification *)

(** X5.  An inbound message without an id whose method is absent or the empty
    string is refused: a critical error is logged and thrown, no channel
    changes and no listener is called. *)
Theorem message_without_id_and_method this data :
  msg_id data = None ->
  msg_method data = None \/ msg_method data = Some EmptyString ->
  let r := onMessage data this in
  outcome r = Thrown (CriticalError (NoIdNorMethod data))
  /\ trace r = [LogError (NoIdNorMethod data)]
  /\ final r = this.
Proof.
  intros Hid Hm r. subst r. unfold onMessage, JSON_parse, hasMethod. rewrite Hid.
  destruct Hm as [-> | ->]; auto.
Qed.

Lemma message_without_id_and_method_witness :
  outcome (onMessage (mkMessage None (Some EmptyString) "params") twoChannels)
  = Thrown (CriticalError (NoIdNorMethod (mkMessage None (Some EmptyString) "params"))).
Proof.
  destruct (message_without_id_and_method twoChannels
              (mkMessage None (Some EmptyString) "params") eq_refl
              (or_intror eq_refl)) as [H _].
  exact H.
Defined.

(** ** What a channel keeps through its history *)

Lemma succeeds_refl this : succeeds this this.
Proof. repeat split; auto. Qed.

Lemma succeeds_trans c b a : succeeds c b -> succeeds b a -> succeeds c a.
Proof.
  intros (Hi & Hn & He & Hp) (Hi' & Hn' & He' & Hp').
  repeat split; try congruence; auto.
Qed.

Lemma domainEnabled_marked_other d domain this :
  domainEnabled this domain = true -> domainEnabled (marked d this) domain = true.
Proof.
  unfold domainEnabled, marked. cbn [_enabledDomains set_enabledDomains].
  destruct (decide (d = domain)) as [->|Hne].
  - now rewrite lookup_insert_eq.
  - now rewrite lookup_insert_ne.
Qed.

Lemma marked_succeeds d this : succeeds (marked d this) this.
Proof.
  repeat split; auto. intros domain. apply domainEnabled_marked_other.
Qed.

Lemma sendUnsentPendingMessages_succeeds domain this :
  domainEnabled this domain = true ->
  succeeds (final (sendUnsentPendingMessages domain this)) this.
Proof.
  intros He. rewrite sendUnsentPendingMessages_run by exact He.
  destruct (_pendingMessagesForDomain this) as [pending|] eqn:Ep;
    [|apply succeeds_refl].
  destruct (pending !! domain), (_messageCallbacks this),
           (inheritedMember domain); try apply succeeds_refl.
  all: repeat split; auto; intros H; rewrite Ep in H; discriminate.
Qed.

Lemma CRDPChannel_send_succeeds messageData this :
  succeeds (final (CRDPChannel_send messageData this)) this.
Proof.
  rewrite CRDPChannel_send_run. unfold forwarded.
  destruct (enableShape _) as [|d|m]; [| |apply succeeds_refl];
    destruct (msg_id messageData); cbn [final];
    try apply succeeds_refl; try apply marked_succeeds.
  eapply succeeds_trans; [|apply marked_succeeds].
  apply sendUnsentPendingMessages_succeeds, domainEnabled_marked.
Qed.

Lemma CRDPChannel_on_succeeds event cb this :
  succeeds (final (CRDPChannel_on event cb this)) this.
Proof.
  rewrite CRDPChannel_on_run.
  destruct (String.eqb event "message"); repeat split; auto.
Qed.

Lemma CRDPChannel_removeListener_run event cb this :
  CRDPChannel_removeListener event cb this =
  if String.eqb event "message" then
    mkRun (set_messageCallbacks
             (splice1 (_messageCallbacks this) (indexOf (_messageCallbacks this) cb))
             this)
          [] (Returned tt)
  else mkRun this [SocketRemoveListener event cb] (Returned tt).
Proof.
  unfold CRDPChannel_removeListener, bind, get, put, emit.
  cbn [outcome final trace]. destruct (String.eqb event "message"); reflexivity.
Qed.

Lemma CRDPChannel_removeListener_succeeds event cb this :
  succeeds (final (CRDPChannel_removeListener event cb this)) this.
Proof.
  rewrite CRDPChannel_removeListener_run.
  destruct (String.eqb event "message"); repeat split; auto.
Qed.

Lemma discardUnsentPendingMessages_run this :
  discardUnsentPendingMessages this =
  match _pendingMessagesForDomain this with
  | Some pending =>
      mkRun (set_pendingMessagesForDomain None this) [LogDiscarding (dom pending)]
            (Returned tt)
  | None => mkRun this [] (Thrown TypeError)
  end.
Proof.
  unfold discardUnsentPendingMessages, bind, get, put, emit, throw.
  cbn [outcome final trace]. destruct (_pendingMessagesForDomain this); reflexivity.
Qed.

Lemma discardUnsentPendingMessages_succeeds this :
  succeeds (final (discardUnsentPendingMessages this)) this.
Proof.
  rewrite discardUnsentPendingMessages_run.
  destruct (_pendingMessagesForDomain this); repeat split; auto.
Qed.

Lemma notified_succeeds domain data this : succeeds (notified domain data this) this.
Proof.
  unfold notified, stored. destruct (domainEnabled this domain);
    [apply succeeds_refl|].
  destruct (_pendingMessagesForDomain this) eqn:Ep; [|apply succeeds_refl].
  repeat split; auto. intros H. rewrite Ep in H. discriminate.
Qed.

Lemma onChannel_lookup idx method this k object :
  _channels this !! k = Some object ->
  _channels (final (onChannel idx method this)) !! k =
  Some (if decide (idx = k) then final (method object) else object).
Proof.
  intros Hk. unfold onChannel.
  destruct (decide (idx = k)) as [->|Hne].
  - rewrite Hk. cbn [final _channels].
    apply list_lookup_insert_eq. eapply lookup_lt_Some, Hk.
  - destruct (_channels this !! idx); [|exact Hk].
    cbn [final _channels]. now rewrite list_lookup_insert_ne.
Qed.

Lemma onChannel_succeeds idx method this k object :
  (forall channel, succeeds (final (method channel)) channel) ->
  _channels this !! k = Some object ->
  exists object',
    _channels (final (onChannel idx method this)) !! k = Some object'
    /\ succeeds object' object.
Proof.
  intros Hm Hk. eexists. split; [apply (onChannel_lookup _ _ _ _ _ Hk)|].
  destruct (decide (idx = k)); [apply Hm | apply succeeds_refl].
Qed.

Lemma onMessage_succeeds data this k object :
  _channels this !! k = Some object ->
  exists object',
    _channels (final (onMessage data this)) !! k = Some object'
    /\ succeeds object' object.
Proof.
  intros Hk. unfold onMessage, JSON_parse.
  destruct (msg_id data) as [n|] eqn:En.
  - rewrite (onResponseMessage_run _ _ _ _ En).
    exists object. split; [|apply succeeds_refl].
    destruct (array_get _ _); exact Hk.
  - destruct (hasMethod data) eqn:Eh;
      [|exists object; split; [exact Hk | apply succeeds_refl]].
    destruct (msg_method data) as [m|] eqn:Em; [|method_is_present Eh Em].
    rewrite (onDomainNotification_run _ _ _ _ Em).
    destruct (split "." m) as [|d [|e [|x parts]]];
      try (exists object; split; [exact Hk | apply succeeds_refl]).
    exists (notified d data object). split; [|apply notified_succeeds].
    cbn [final _channels].
    change (map (notified d data)) with (fmap (M:=list) (notified d data)).
    now rewrite list_lookup_fmap, Hk.
Qed.

Lemma call_succeeds c this k object :
  _channels this !! k = Some object ->
  exists object',
    _channels (final (call c this)) !! k = Some object' /\ succeeds object' object.
Proof.
  intros Hk. destruct c as [channelName|j data|j event cb|j event cb|data|j];
    cbn [call].
  - exists object. split; [|apply succeeds_refl].
    unfold bind. rewrite addChannel_run.
    destruct (10 <=? length (_channels this))%nat; cbn [outcome final _channels];
      [exact Hk|].
    apply lookup_app_l_Some, Hk.
  - apply onChannel_succeeds; [apply CRDPChannel_send_succeeds | exact Hk].
  - apply onChannel_succeeds; [apply CRDPChannel_on_succeeds | exact Hk].
  - apply onChannel_succeeds; [apply CRDPChannel_removeListener_succeeds | exact Hk].
  - now apply onMessage_succeeds.
  - apply onChannel_succeeds; [apply discardUnsentPendingMessages_succeeds | exact Hk].
Qed.

Lemma calls_succeeds cs this k object :
  _channels this !! k = Some object ->
  exists object',
    _channels (fst (calls cs this)) !! k = Some object' /\ succeeds object' object.
Proof.
  revert this object. induction cs as [|c cs IH]; intros this object Hk.
  - exists object. split; [exact Hk | apply succeeds_refl].
  - cbn [calls].
    destruct (call_succeeds c this k object Hk) as (mid & Hmid & Hs).
    destruct (IH _ _ Hmid) as (object' & Hk' & Hs').
    destruct (calls cs (final (call c this))) as [later t]. cbn [fst] in *.
    exists object'. split; [exact Hk'|]. eapply succeeds_trans; eassumption.
Qed.

(** X6.  Whatever calls are made, a registered channel stays at its place in
    the registry with the id and the name it was created with, and every
    domain it has enabled stays enabled: nothing removes a channel or
    disables a domain. *)
Theorem enabled_domains_never_lost cs this k object domain :
  _channels this !! k = Some object ->
  domainEnabled object domain = true ->
  exists object',
    _channels (fst (calls cs this)) !! k = Some object'
    /\ id object' = id object
    /\ name object' = name object
    /\ domainEnabled object' domain = true.
Proof.
  intros Hk He.
  destruct (calls_succeeds cs this k object Hk) as (object' & Hk' & Hi & Hn & Hd & _).
  exists object'. auto.
Qed.

Lemma enabled_domains_never_lost_witness :
  exists object',
    _channels (fst (calls [TimerFires 0; RemoveListener 0 "message" 7;
                           SocketMessage (mkMessage None (Some "Debugger.paused") "p")]
                          threeChannels)) !! 0%nat = Some object'
    /\ id object' = 0%Z
    /\ name object' = "a"
    /\ domainEnabled object' "Debugger" = true.
Proof.
  destruct (enabled_domains_never_lost
              [TimerFires 0; RemoveListener 0 "message" 7;
               SocketMessage (mkMessage None (Some "Debugger.paused") "p")]
              threeChannels 0
              (mkChannel "a" 0 [7] (<["Debugger" := true]> ∅) (Some ∅))
              "Debugger" eq_refl eq_refl) as (object' & H).
  exists object'. exact H.
Defined.

(** X7.  Discarding is final.  Once the buffer of a channel is discarded it
    stays discarded whatever calls follow, and a timer of that channel
    that fires afterwards throws a [TypeError] and changes nothing. *)
Theorem discarded_buffer_stays_discarded cs this k object :
  _channels this !! k = Some object ->
  _pendingMessagesForDomain object = None ->
  let later := fst (calls cs this) in
  (exists object',
     _channels later !! k = Some object'
     /\ _pendingMessagesForDomain object' = None)
  /\ outcome (call (TimerFires k) later) = Thrown TypeError
  /\ final (call (TimerFires k) later) = later.
Proof.
  intros Hk Hp later.
  destruct (calls_succeeds cs this k object Hk) as (object' & Hk' & _ & _ & _ & Hd).
  fold later in Hk'. specialize (Hd Hp).
  split; [eauto|]. cbn [call]. unfold onChannel. rewrite Hk'.
  rewrite discardUnsentPendingMessages_run, Hd. cbn [outcome final].
  split; [reflexivity|]. rewrite (list_insert_id _ _ _ Hk').
  destruct later; reflexivity.
Qed.

Lemma discarded_buffer_stays_discarded_witness :
  outcome
    (call (TimerFires 2)
          (fst (calls [Send 2 (mkMessage (Some 1%Z) (Some "Runtime.enable") "p");
                       On 2 "message" 5]
                      threeChannels)))
  = Thrown TypeError.
Proof.
  destruct (discarded_buffer_stays_discarded
              [Send 2 (mkMessage (Some 1%Z) (Some "Runtime.enable") "p");
               On 2 "message" 5]
              threeChannels 2 (mkChannel "c" 2 [9] ∅ None) eq_refl eq_refl)
    as (_ & H & _).
  exact H.
Defined.

(** ** What a send writes and whom a call on a channel reaches *)

Lemma deliveriesTo_replay_other channelId other (cbs : list Callback)
    (messages : list Data) :
  other <> channelId ->
  deliveriesTo other
    (flat_map (fun data => map (fun cb => Invoke channelId cb data) cbs) messages) = [].
Proof.
  intros Hne. induction messages as [|data messages IH]; [reflexivity|].
  cbn [flat_map]. rewrite deliveriesTo_app, IH, app_nil_r.
  now apply deliveriesTo_invokes_other.
Qed.

(** The flush writes nothing and calls the listeners of its own channel
    only. *)
Lemma sendUnsentPendingMessages_quiet domain this :
  domainEnabled this domain = true ->
  written (trace (sendUnsentPendingMessages domain this)) = []
  /\ forall other, other <> id this ->
       deliveriesTo other (trace (sendUnsentPendingMessages domain this)) = [].
Proof.
  intros He. rewrite sendUnsentPendingMessages_run by exact He.
  destruct (_pendingMessagesForDomain this) as [pending|]; [|auto].
  destruct (pending !! domain) as [messages|], (_messageCallbacks this) as [|cb cbs],
           (inheritedMember domain); auto.
  all: cbn [trace]; split;
    [ change (written (_ :: ?t)) with (written t); apply written_replay
    | intros other Hne;
      change (deliveriesTo other (_ :: ?t)) with (deliveriesTo other t);
      now apply deliveriesTo_replay_other ].
Qed.

Lemma CRDPChannel_send_written messageData this :
  written (trace (CRDPChannel_send messageData this)) =
  match msg_id messageData, enableShape (msg_method messageData) with
  | Some n, NotEnable | Some n, EnableFor _ =>
      [set_id messageData (encodifyChannel (id this) n)]
  | _, _ => []
  end.
Proof.
  rewrite CRDPChannel_send_run. unfold forwarded.
  destruct (msg_id messageData) as [n|],
           (enableShape (msg_method messageData)) as [|d|m]; try reflexivity.
  cbn [trace]. change (written (SocketSend ?x :: ?t)) with (x :: written t).
  destruct (sendUnsentPendingMessages_quiet d (marked d this)
              (domainEnabled_marked d this)) as [-> _].
  reflexivity.
Qed.

(** X8.  A channel send writes one text, the message with its id replaced by
    [id * 10 + channelId], when the message has an id and its method is
    not an enable method with other than two parts.  In every other case
    it writes nothing. *)
Theorem send_writes_the_encoded_request_or_nothing messageData this :
  written (trace (CRDPChannel_send messageData this)) =
  match msg_id messageData, enableShape (msg_method messageData) with
  | Some n, NotEnable | Some n, EnableFor _ =>
      [set_id messageData (encodifyChannel (id this) n)]
  | _, _ => []
  end.
Proof. apply CRDPChannel_send_written. Qed.

Lemma CRDPChannel_send_deliveriesTo_other messageData this other :
  other <> id this ->
  deliveriesTo other (trace (CRDPChannel_send messageData this)) = [].
Proof.
  intros Hne. rewrite CRDPChannel_send_run. unfold forwarded.
  destruct (msg_id messageData) as [n|],
           (enableShape (msg_method messageData)) as [|d|m]; try reflexivity.
  cbn [trace]. change (deliveriesTo other (_ :: ?t)) with (deliveriesTo other t).
  destruct (sendUnsentPendingMessages_quiet d (marked d this)
              (domainEnabled_marked d this)) as [_ H].
  now apply H.
Qed.

Lemma onChannel_trace idx method this object :
  _channels this !! idx = Some object ->
  trace (onChannel idx method this) = trace (method object)
  /\ outcome (onChannel idx method this) = outcome (method object).
Proof. intros Hk. unfold onChannel. rewrite Hk. auto. Qed.

(** X9.  A call made on a channel (a send, a registration or removal of a
    listener, a timer that fires) never adds or drops a channel, leaves
    every other channel object exactly as it was, and calls no listener
    of another channel. *)
Theorem call_on_a_channel_is_local c this k object :
  targetOf c = Some k ->
  _channels this !! k = Some object ->
  let r := call c this in
  length (_channels (final r)) = length (_channels this)
  /\ (forall j, j <> k -> _channels (final r) !! j = _channels this !! j)
  /\ (forall other, other <> id object -> deliveriesTo other (trace r) = []).
Proof.
  intros Ht Hk r. subst r.
  assert (forall method,
            (forall other, other <> id object ->
                           deliveriesTo other (trace (method object)) = []) ->
            length (_channels (final (onChannel k method this))) = length (_channels this)
            /\ (forall j, j <> k ->
                  _channels (final (onChannel k method this)) !! j = _channels this !! j)
            /\ (forall other, other <> id object ->
                  deliveriesTo other (trace (onChannel k method this)) = [])) as Hlocal.
  { intros method Hquiet.
    destruct (onChannel_trace k method this object Hk) as [Htr _]. rewrite Htr.
    unfold onChannel. rewrite Hk. cbn [final _channels].
    split; [apply length_insert|]. split; [|exact Hquiet].
    intros j Hj. now apply list_lookup_insert_ne. }
  destruct c as [channelName|j data|j event cb|j event cb|data|j];
    cbn [targetOf] in Ht; inversion Ht; subst j; cbn [call]; apply Hlocal.
  - intros other Hne. now apply CRDPChannel_send_deliveriesTo_other.
  - intros other _. rewrite CRDPChannel_on_run.
    destruct (String.eqb event "message"); [|reflexivity].
    destruct (_messageCallbacks object); reflexivity.
  - intros other _. rewrite CRDPChannel_removeListener_run.
    destruct (String.eqb event "message"); reflexivity.
  - intros other _. rewrite discardUnsentPendingMessages_run.
    destruct (_pendingMessagesForDomain object); reflexivity.
Qed.

Lemma call_on_a_channel_is_local_witness :
  let enable := mkMessage (Some 5%Z) (Some "Debugger.enable") "p" in
  _channels (final (call (Send 1 enable) threeChannels)) !! 0%nat
  = _channels threeChannels !! 0%nat.
Proof.
  intros enable.
  destruct (call_on_a_channel_is_local (Send 1 enable) threeChannels 1
              (mkChannel "b" 1 [8] ∅ (Some ∅)) eq_refl eq_refl) as (_ & H & _).
  apply H. lia.
Defined.

(** ** From a request to its response *)

Lemma decodify_encodified_parts (c n : Z) :
  (0 <= c <= 9)%Z -> (0 <= n)%Z ->
  decodifyChannelId (encodifyChannel c n) = c
  /\ decodifyId (encodifyChannel c n) = n.
Proof.
  intros Hc Hn. unfold decodifyChannelId, decodifyId, encodifyChannel.
  rewrite Z.rem_mod_nonneg by lia.
  pose proof (Z.mod_pos_bound (n * 10 + c) 10 ltac:(lia)).
  pose proof (Z.div_mod (n * 10 + c) 10 ltac:(lia)).
  lia.
Qed.

(** X10.  A request that channel [k] wrote to the socket comes back to channel
    [k], as long as its encoded id is a safe integer.  In a well-formed
    registry, if the send of a request with id [n >= 0] wrote the text
    [wire], whose id is safe, then after any further calls an inbound
    message that carries the id of [wire] is handed to the listeners that
    channel [k] has at that time, with its id set back to [n], and to
    nobody else. *)
Theorem response_returns_to_the_sender this k object request n wire cs response :
  registry_ok this ->
  _channels this !! k = Some object ->
  msg_id request = Some n -> (0 <= n)%Z ->
  safeInteger (encodifyChannel (Z.of_nat k) n) ->
  written (trace (call (Send k request) this)) = [wire] ->
  msg_id response = msg_id wire ->
  let later := fst (calls cs (final (call (Send k request) this))) in
  exists object',
    _channels later !! k = Some object'
    /\ outcome (onMessage response later) = Returned tt
    /\ trace (onMessage response later) =
       map (fun cb => Invoke (id object) cb (set_id response n))
           (_messageCallbacks object').
Proof.
  intros Hok Hk Hid Hn _ Hw Hresp later.
  cbn [call] in Hw.
  destruct (onChannel_trace k (CRDPChannel_send request) this object Hk) as [Htr _].
  rewrite Htr, CRDPChannel_send_written, Hid in Hw.
  assert (wire = set_id request (encodifyChannel (id object) n)) as ->
    by (destruct (enableShape _); congruence).
  cbn [msg_id set_id] in Hresp.
  pose proof (registry_ok_lookup _ _ _ Hok Hk) as Hidk.
  assert (registry_ok later) as Hok'
    by (apply calls_registry_ok, call_registry_ok, Hok).
  destruct (call_succeeds (Send k request) this k object Hk) as (mid & Hmid & Hs1).
  destruct (calls_succeeds cs _ k mid Hmid) as (object' & Hk' & Hs2).
  fold later in Hk'.
  destruct (succeeds_trans _ _ _ Hs2 Hs1) as (Hi & _).
  assert (0 <= id object <= 9)%Z as Hc.
  { apply lookup_lt_Some in Hk. destruct Hok as [_ Hlen]. lia. }
  destruct (decodify_encodified_parts (id object) n Hc Hn) as [Hdc Hdn].
  exists object'. split; [exact Hk'|].
  unfold onMessage, JSON_parse. rewrite Hresp.
  rewrite (onResponseMessage_run _ _ _ _ Hresp), Hdc, Hdn.
  unfold array_get. destruct (Z.ltb_spec (id object) 0) as [|_]; [lia|].
  rewrite Hidk, Nat2Z.id, Hk'. cbn [outcome trace].
  rewrite Hi, Hidk. auto.
Qed.

Lemma response_returns_to_the_sender_witness :
  trace (onMessage (mkMessage (Some 31%Z) None "result")
           (fst (calls [On 1 "message" 4]
                       (final (call (Send 1 (mkMessage (Some 3%Z)
                                                        (Some "Runtime.evaluate") "p"))
                                    twoChannels)))))
  = [Invoke 1 8 (mkMessage (Some 3%Z) None "result");
     Invoke 1 4 (mkMessage (Some 3%Z) None "result")].
Proof.
  assert (registry_ok twoChannels) as Hok
    by (split; [reflexivity | vm_compute; lia]).
  destruct (response_returns_to_the_sender twoChannels 1
              (mkChannel "b" 1 [8] ∅ (Some ∅))
              (mkMessage (Some 3%Z) (Some "Runtime.evaluate") "p") 3
              (mkMessage (Some 31%Z) (Some "Runtime.evaluate") "p")
              [On 1 "message" 4]
              (mkMessage (Some 31%Z) None "result")
              Hok eq_refl eq_refl ltac:(lia) ltac:(in_safe_range) eq_refl eq_refl)
    as (object' & Hk & _ & Ht).
  vm_compute in Hk. inversion Hk; subst object'. exact Ht.
Defined.

(** ** Broadcasts *)

Lemma onMessage_notification_run data domain event this :
  msg_id data = None ->
  msg_method data = Some (domain ++ String "." event) ->
  occurrences "." domain = 0%nat ->
  occurrences "." event = 0%nat ->
  onMessage data this =
  mkRun {| _channels := map (notified domain data) (_channels this) |}
        (flat_map (notifiedTrace domain data) (_channels this))
        (Returned tt).
Proof.
  intros Hid Hm Hd He. unfold onMessage, JSON_parse.
  rewrite Hid, (hasMethod_with_dot _ _ _ Hm), (onDomainNotification_run _ _ _ _ Hm).
  rewrite (split_at_first_separator "." domain event Hd).
  now rewrite (split_without_separator "." event He).
Qed.

Lemma deliveries_notified domain data channels :
  deliveries (flat_map (notifiedTrace domain data) channels) =
  flat_map (fun channel =>
              if domainEnabled channel domain
              then map (fun cb => (id channel, cb, data)) (_messageCallbacks channel)
              else [])
           channels.
Proof.
  induction channels as [|channel rest IH]; [reflexivity|].
  cbn [flat_map]. rewrite deliveries_app, IH. f_equal.
  unfold notifiedTrace. destruct (domainEnabled channel domain); [|reflexivity].
  apply deliveries_invokes.
Qed.

(** X11.  A notification reaches the listeners channel by channel in the order
    the channels were created, and inside a channel in the order the
    listeners were registered.  The channels for which
    [this._enabledDomains[domain]] is falsy are skipped: those that have
    not enabled the domain, unless the domain is the name of a member of
    [Object.prototype], which no channel skips. *)
Theorem notification_broadcast_order this data domain event :
  msg_id data = None ->
  msg_method data = Some (domain ++ String "." event) ->
  occurrences "." domain = 0%nat ->
  occurrences "." event = 0%nat ->
  deliveries (trace (onMessage data this)) =
  flat_map (fun channel =>
              if domainEnabled channel domain
              then map (fun cb => (id channel, cb, data)) (_messageCallbacks channel)
              else [])
           (_channels this).
Proof.
  intros Hid Hm Hd He.
  rewrite (onMessage_notification_run _ _ _ _ Hid Hm Hd He). cbn [trace].
  apply deliveries_notified.
Qed.

Lemma notification_broadcast_order_witness :
  let resumed := mkMessage None (Some "Debugger.resumed") "p" in
  let both :=
    fst (calls [Send 1 (mkMessage (Some 1%Z) (Some "Debugger.enable") "p");
                On 0 "message" 6]
               threeChannels) in
  deliveries (trace (onMessage resumed both))
  = [(0%Z, 7, resumed); (0%Z, 6, resumed); (1%Z, 8, resumed)].
Proof.
  intros resumed both.
  rewrite (notification_broadcast_order both resumed "Debugger" "resumed"
             eq_refl eq_refl eq_refl eq_refl).
  vm_compute. reflexivity.
Defined.

Lemma CRDPChannel_send_marks request D this :
  enableShape (msg_method request) = EnableFor D ->
  domainEnabled (final (CRDPChannel_send request this)) D = true.
Proof.
  intros Hs. rewrite CRDPChannel_send_run, Hs. unfold forwarded.
  destruct (msg_id request); cbn [final]; [|apply domainEnabled_marked].
  destruct (sendUnsentPendingMessages_succeeds D (marked D this)
              (domainEnabled_marked D this)) as (_ & _ & He & _).
  apply He, domainEnabled_marked.
Qed.

(** X12.  Once a channel has sent a message whose method is an enable method of
    domain [D], with or without an id, every later notification of [D] is
    handed to the listeners the channel has when it arrives, whatever
    calls were made in between. *)
Theorem enabled_domain_is_delivered_from_then_on
    this k object request D cs data event :
  registry_ok this ->
  _channels this !! k = Some object ->
  enableShape (msg_method request) = EnableFor D ->
  msg_id data = None ->
  msg_method data = Some (D ++ String "." event) ->
  occurrences "." event = 0%nat ->
  let later := fst (calls cs (final (call (Send k request) this))) in
  exists object',
    _channels later !! k = Some object'
    /\ deliveriesTo (id object) (trace (onMessage data later)) =
       map (fun cb => (cb, data)) (_messageCallbacks object').
Proof.
  intros Hok Hk Hs Hid Hm He later.
  assert (occurrences "." D = 0%nat) as HD.
  { unfold enableShape in Hs. destruct (msg_method request) as [m|]; [|discriminate].
    destruct (endsWith m ".enable"); [|discriminate].
    destruct (split "." m) as [|d [|e [|x parts]]] eqn:Es; try discriminate.
    inversion Hs; subst d. now destruct (split_two_parts _ _ _ _ Es) as (_ & H & _). }
  assert (registry_ok later) as Hok'
    by (apply calls_registry_ok, call_registry_ok, Hok).
  pose proof (onChannel_lookup k (CRDPChannel_send request) this k object Hk) as Hmid.
  rewrite decide_True in Hmid by reflexivity.
  destruct (calls_succeeds cs _ k _ Hmid) as (object' & Hk' & Hi & _ & Hen & _).
  fold later in Hk'.
  pose proof (CRDPChannel_send_keepsId request object) as Hsame.
  specialize (Hen D (CRDPChannel_send_marks request D object Hs)).
  exists object'. split; [exact Hk'|].
  rewrite (onMessage_notification_run _ _ _ _ Hid Hm HD He). cbn [trace].
  rewrite <- Hsame, <- Hi.
  rewrite (deliveriesTo_broadcast _ _ _ k object' (registry_ok_NoDup _ Hok') Hk').
  unfold notifiedTrace. rewrite Hen. apply deliveriesTo_invokes_same.
Qed.

Lemma enabled_domain_is_delivered_from_then_on_witness :
  let paused := mkMessage None (Some "Debugger.paused") "p" in
  exists object',
    _channels (fst (calls [TimerFires 1]
                          (final (call (Send 1 (mkMessage None (Some "Debugger.enable") "p"))
                                       twoChannels)))) !! 1%nat = Some object'
    /\ deliveriesTo 1
         (trace (onMessage paused
                   (fst (calls [TimerFires 1]
                               (final (call (Send 1 (mkMessage None
                                                       (Some "Debugger.enable") "p"))
                                            twoChannels))))))
       = map (fun cb => (cb, paused)) (_messageCallbacks object').
Proof.
  intros paused.
  assert (registry_ok twoChannels) as Hok
    by (split; [reflexivity | vm_compute; lia]).
  exact (enabled_domain_is_delivered_from_then_on twoChannels 1
           (mkChannel "b" 1 [8] ∅ (Some ∅))
           (mkMessage None (Some "Debugger.enable") "p") "Debugger"
           [TimerFires 1] paused "paused"
           Hok eq_refl eq_refl eq_refl eq_refl eq_refl).
Defined.

(** ** Queues *)

(** Notifications of a domain that is not enabled, taken one after the
    other by a channel whose buffer is live: nothing is delivered and the
    queue of the domain grows at its end, in arrival order. *)
Lemma forEach_queued domain (arrivals : list Data) this pending :
  domainEnabled this domain = false ->
  _pendingMessagesForDomain this = Some pending ->
  let r := forEach (fun data => callDomainMessageCallbacks domain data) arrivals this in
  outcome r = Returned tt
  /\ trace r = []
  /\ succeeds (final r) this
  /\ _messageCallbacks (final r) = _messageCallbacks this
  /\ _enabledDomains (final r) = _enabledDomains this
  /\ exists pending',
       _pendingMessagesForDomain (final r) = Some pending'
       /\ default [] (pending' !! domain) =
          (default [] (pending !! domain) ++ arrivals)%list.
Proof.
  revert this pending.
  induction arrivals as [|data arrivals IH]; intros this pending He Hp r; subst r.
  - cbn [forEach]. unfold ret. cbn [outcome trace final].
    repeat split; auto. exists pending. now rewrite app_nil_r.
  - cbn [forEach]. unfold bind.
    rewrite callDomainMessageCallbacks_run, He. cbn [outcome final trace].
    unfold stored. rewrite Hp.
    set (next := set_pendingMessagesForDomain _ this).
    destruct (IH next _ He eq_refl) as (Ho & Ht & Hs & Hc & Hen & pending' & Hp' & Hq).
    rewrite Ho, Ht. split; [reflexivity|]. split; [reflexivity|].
    split; [|split; [exact Hc|split; [exact Hen|]]].
    + eapply succeeds_trans; [exact Hs|].
      repeat split; auto. intros H. rewrite Hp in H. discriminate.
    + exists pending'. split; [exact Hp'|].
      rewrite Hq, lookup_insert_eq. cbn [default]. unfold Datatypes.id.
      now rewrite <- app_assoc.
Qed.

(** X13.  What was queued comes out in the order it came in.  A channel with a
    live buffer and at least one listener takes notifications of a domain
    [D] for which [this._enabledDomains[D]] is falsy (not enabled, and no
    name of an inherited member) without delivering any; when it then sends
    [{id: n, method: "D.enable"}], its listeners receive what was queued
    before followed by these notifications, in arrival order. *)
Theorem queued_notifications_are_replayed_in_order
    this pending D (arrivals : list Data) n rest :
  occurrences "." D = 0%nat ->
  _pendingMessagesForDomain this = Some pending ->
  domainEnabled this D = false ->
  _messageCallbacks this <> [] ->
  let taking := forEach (fun data => callDomainMessageCallbacks D data) arrivals this in
  let r := CRDPChannel_send (mkMessage (Some n) (Some (D ++ ".enable")) rest)
                            (final taking) in
  deliveries (trace taking) = []
  /\ outcome r = Returned tt
  /\ deliveries (trace r) =
     flat_map (fun data => map (fun cb => (id this, cb, data)) (_messageCallbacks this))
              (default [] (pending !! D) ++ arrivals).
Proof.
  intros HD Hp He Hcb taking r.
  destruct (forEach_queued D arrivals this pending He Hp)
    as (_ & Ht & (Hi & _) & Hc & _ & pending' & Hp' & Hq).
  fold taking in Ht, Hi, Hc, Hp'. subst r.
  rewrite Ht. split; [reflexivity|].
  rewrite (CRDPChannel_send_enable D n rest (final taking) HD).
  rewrite sendUnsentPendingMessages_run by apply domainEnabled_marked.
  cbn [_pendingMessagesForDomain set_enabledDomains _messageCallbacks id].
  rewrite Hp', Hc, Hi, <- Hq, (domainEnabled_false _ _ He).
  destruct (_messageCallbacks this) as [|cb cbs] eqn:Ec; [congruence|].
  destruct (pending' !! D) as [messages|]; cbn [outcome trace default].
  - split; [reflexivity|].
    change (deliveries (_ :: _ :: ?t)) with (deliveries t).
    apply (deliveries_replay (id this) (cb :: cbs) messages).
  - auto.
Qed.

Lemma queued_notifications_are_replayed_in_order_witness :
  let p0 := mkMessage None (Some "Debugger.scriptParsed") "zero" in
  let p1 := mkMessage None (Some "Debugger.paused") "one" in
  let p2 := mkMessage None (Some "Debugger.resumed") "two" in
  let this := mkChannel "c" 0 [7] ∅ (Some (<["Debugger" := [p0]]> ∅)) in
  deliveries
    (trace (CRDPChannel_send
              (mkMessage (Some 2%Z) (Some "Debugger.enable") "p")
              (final (forEach (fun data => callDomainMessageCallbacks "Debugger" data)
                              [p1; p2] this))))
  = [(0%Z, 7, p0); (0%Z, 7, p1); (0%Z, 7, p2)].
Proof.
  intros p0 p1 p2 this.
  destruct (queued_notifications_are_replayed_in_order this
              (<["Debugger" := [p0]]> ∅) "Debugger" [p1; p2] 2%Z "p"
              eq_refl eq_refl eq_refl ltac:(discriminate)) as (_ & _ & H).
  exact H.
Defined.

(** X14.  Sending the enable request of a domain a second time is harmless,
    for a domain that is not the name of a member of [Object.prototype]:
    on a channel with a live buffer the second send returns normally,
    writes its own rewritten request, calls no listener and leaves the
    channel as the first send left it. *)
Theorem second_enable_changes_nothing this pending D n n' rest rest' :
  occurrences "." D = 0%nat ->
  inheritedMember D = false ->
  _pendingMessagesForDomain this = Some pending ->
  let first := CRDPChannel_send (mkMessage (Some n) (Some (D ++ ".enable")) rest) this in
  let again := mkMessage (Some n') (Some (D ++ ".enable")) rest' in
  let second := CRDPChannel_send again (final first) in
  outcome second = Returned tt
  /\ final second = final first
  /\ deliveries (trace second) = []
  /\ written (trace second) = [set_id again (encodifyChannel (id this) n')].
Proof.
  intros HD Hown Hp first again second. subst first again second.
  rewrite (CRDPChannel_send_enable D n rest this HD).
  rewrite (sendUnsentPendingMessages_run D _ (domainEnabled_marked D this)).
  cbn [_pendingMessagesForDomain set_enabledDomains _messageCallbacks id].
  rewrite Hp, Hown.
  assert (forall p cbs,
            (p !! D = None \/ cbs = []) ->
            let once := mkChannel (name this) (id this) cbs
                                  (<[D := true]> (_enabledDomains this)) (Some p) in
            let r := CRDPChannel_send (mkMessage (Some n') (Some (D ++ ".enable")) rest')
                                      once in
            outcome r = Returned tt /\ final r = once /\ deliveries (trace r) = []
            /\ written (trace r) =
               [set_id (mkMessage (Some n') (Some (D ++ ".enable")) rest')
                       (encodifyChannel (id this) n')]) as Hsecond.
  { intros p cbs Hq once r. subst r.
    rewrite (CRDPChannel_send_enable D n' rest' once HD).
    rewrite (sendUnsentPendingMessages_run D _ (domainEnabled_marked D once)).
    unfold once.
    cbn [_pendingMessagesForDomain set_enabledDomains _messageCallbacks
         _enabledDomains id name].
    rewrite insert_insert_eq, Hown.
    destruct Hq as [-> | ->]; [destruct cbs|destruct (p !! D)];
      cbn [outcome final trace]; auto. }
  destruct (pending !! D) as [messages|] eqn:Eq,
           (_messageCallbacks this) as [|cb cbs] eqn:Ec; cbn [final].
  - destruct this as [nm i c e q]. cbn in *. subst c q.
    apply (Hsecond pending []). auto.
  - destruct this as [nm i c e q]. cbn in *. subst c q.
    apply (Hsecond (delete D pending) (cb :: cbs)). left. apply lookup_delete_eq.
  - destruct this as [nm i c e q]. cbn in *. subst c q.
    apply (Hsecond pending []). auto.
  - destruct this as [nm i c e q]. cbn in *. subst c q.
    apply (Hsecond pending (cb :: cbs)). auto.
Qed.

Lemma second_enable_changes_nothing_witness :
  let p1 := mkMessage None (Some "Debugger.paused") "one" in
  let this := mkChannel "c" 0 [7] ∅ (Some (<["Debugger" := [p1]]> ∅)) in
  let first := CRDPChannel_send (mkMessage (Some 1%Z) (Some "Debugger.enable") "p") this in
  deliveries (trace (CRDPChannel_send (mkMessage (Some 2%Z) (Some "Debugger.enable") "q")
                                      (final first))) = [].
Proof.
  intros p1 this first.
  destruct (second_enable_changes_nothing this (<["Debugger" := [p1]]> ∅)
              "Debugger" 1%Z 2%Z "p" "q" eq_refl eq_refl eq_refl) as (_ & _ & H & _).
  exact H.
Defined.

(** ** Registering and removing listeners *)

Lemma indexOf_first (before after : list Callback) cb :
  cb ∉ before ->
  indexOf (before ++ cb :: after)%list cb = Z.of_nat (length before).
Proof.
  intros Habsent. unfold indexOf.
  assert (list_find (fun y => y = cb) (before ++ cb :: after)%list
          = Some (length before, cb)) as ->; [|reflexivity].
  apply list_find_Some. split; [|split; [reflexivity|]].
  - rewrite lookup_app_r by lia. now rewrite Nat.sub_diag.
  - intros j y Hj Hlt Hy. subst y. apply Habsent.
    rewrite lookup_app_l in Hj by exact Hlt.
    eapply list_elem_of_lookup_2, Hj.
Qed.

Lemma delete_middle_one {A} (before after : list A) x :
  delete (length before) (before ++ x :: after)%list = (before ++ after)%list.
Proof. induction before as [|y before IH]; simpl; [reflexivity|]. now rewrite IH. Qed.

Lemma splice1_at {A} (before after : list A) x :
  splice1 (before ++ x :: after)%list (Z.of_nat (length before))
  = (before ++ after)%list.
Proof.
  unfold splice1. rewrite length_app. cbn [length].
  destruct (Z.ltb_spec (Z.of_nat (length before)) 0) as [|_]; [lia|].
  replace (Z.to_nat _) with (length before) by lia.
  apply delete_middle_one.
Qed.

(** X15.  Removing a registered ['message'] listener removes its first
    registration and nothing else: the listeners before and after it keep
    their order, later registrations of the same callback stay, no effect
    is produced. *)
Theorem removeListener_removes_first_registration this before after cb :
  _messageCallbacks this = (before ++ cb :: after)%list ->
  cb ∉ before ->
  CRDPChannel_removeListener "message" cb this =
  mkRun (set_messageCallbacks (before ++ after)%list this) [] (Returned tt).
Proof.
  intros Hl Habsent. rewrite CRDPChannel_removeListener_run. cbn.
  now rewrite Hl, (indexOf_first _ _ _ Habsent), splice1_at.
Qed.

Lemma removeListener_removes_first_registration_witness :
  CRDPChannel_removeListener "message" 2
    (set_messageCallbacks [1; 2; 3; 2] (newChannel "c" 0)) =
  mkRun (set_messageCallbacks [1; 3; 2]
           (set_messageCallbacks [1; 2; 3; 2] (newChannel "c" 0)))
        [] (Returned tt).
Proof.
  apply (removeListener_removes_first_registration _ [1] [3; 2] 2); [reflexivity|].
  apply (bool_decide_unpack _). vm_compute. exact I.
Defined.

(** X16.  Registering a ['message'] listener that the channel does not have
    and removing it again gives the channel back as it was. *)
Theorem on_then_removeListener_restores this cb :
  cb ∉ _messageCallbacks this ->
  final (CRDPChannel_removeListener "message" cb
           (final (CRDPChannel_on "message" cb this))) = this.
Proof.
  intros Habsent. rewrite CRDPChannel_on_run. cbn [String.eqb final].
  rewrite CRDPChannel_removeListener_run. cbn.
  rewrite (indexOf_first _ [] _ Habsent), splice1_at, app_nil_r.
  destruct this; reflexivity.
Qed.

Lemma on_then_removeListener_restores_witness :
  final (CRDPChannel_removeListener "message" 5
           (final (CRDPChannel_on "message" 5
                     (set_messageCallbacks [1; 2] (newChannel "c" 0)))))
  = set_messageCallbacks [1; 2] (newChannel "c" 0).
Proof.
  apply (on_then_removeListener_restores _ 5).
  apply (bool_decide_unpack _). vm_compute. exact I.
Defined.

(** ** Inbound messages and the socket *)

Lemma written_notified domain data channels :
  written (flat_map (notifiedTrace domain data) channels) = [].
Proof.
  induction channels as [|channel rest IH]; [reflexivity|].
  cbn [flat_map]. rewrite written_app, IH, app_nil_r. unfold notifiedTrace.
  destruct (domainEnabled channel domain); [apply written_invokes | reflexivity].
Qed.

(** X17.  Handling an inbound message never writes to the socket, whatever the
    message and the state: responses and notifications only go up to the
    listeners. *)
Theorem onMessage_never_writes data this : written (trace (onMessage data this)) = [].
Proof.
  unfold onMessage, JSON_parse.
  destruct (msg_id data) as [n|] eqn:En.
  - rewrite (onResponseMessage_run _ _ _ _ En).
    destruct (array_get _ _); [apply written_invokes | reflexivity].
  - destruct (hasMethod data) eqn:Eh; [|reflexivity].
    destruct (msg_method data) as [m|] eqn:Em; [|method_is_present Eh Em].
    rewrite (onDomainNotification_run _ _ _ _ Em).
    destruct (split "." m) as [|d [|e [|x parts]]]; try reflexivity.
    apply written_notified.
Qed.

(** * Properties of the remote path test *)

Lemma startsWith_spec s prefix :
  startsWith s prefix = true <-> exists rest, s = prefix ++ rest.
Proof.
  revert s. induction prefix as [|p prefix IH]; intros s; cbn [startsWith].
  - split; [intros _; now exists s | now destruct s].
  - destruct s as [|c s].
    + cbn [startsWith]. split; [discriminate | intros [rest H]; discriminate].
    + cbn [startsWith]. rewrite andb_true_iff, IH. split.
      * intros [Hc [rest ->]]. apply Ascii.eqb_eq in Hc. subst c. now exists rest.
      * intros [rest H]. cbn in H. inversion H; subst.
        split; [apply Ascii.eqb_refl | now exists rest].
Qed.

Lemma isSlash_spec c : isSlash c = true <-> c = "/"%char \/ c = "\"%char.
Proof. unfold isSlash. now rewrite orb_true_iff, !Ascii.eqb_eq. Qed.

Lemma driveComponentHere_spec s :
  driveComponentHere s = true <-> holdsDriveComponent EmptyString s.
Proof.
  unfold driveComponentHere, holdsDriveComponent. split.
  - destruct s as [|letter [|colon [|slash rest]]]; try discriminate.
    cbv beta iota. intros H.
    apply andb_true_iff in H as [H Hst]. apply andb_true_iff in H as [H Hs].
    apply andb_true_iff in H as [Hl Hc].
    apply Ascii.eqb_eq in Hc. apply isSlash_spec in Hs.
    apply startsWith_spec in Hst as [tail ->]. subst colon.
    exists letter, slash, tail. auto.
  - intros (letter & slash & rest & Hl & Hs & ->).
    change (isAsciiLetter letter && Ascii.eqb ":" ":" && isSlash slash
            && startsWith (remotePathComponent ++ rest) remotePathComponent = true).
    rewrite !andb_true_iff, Ascii.eqb_eq, isSlash_spec, startsWith_spec.
    repeat split; auto. now exists rest.
Qed.

Lemma driveComponentSomewhere_spec s :
  driveComponentSomewhere s = true <-> exists before, holdsDriveComponent before s.
Proof.
  induction s as [|c s IH]; cbn [driveComponentSomewhere];
    rewrite orb_true_iff, driveComponentHere_spec.
  - split.
    + intros [H | H]; [now exists EmptyString | discriminate].
    + intros [[|b before] (letter & slash & rest & _ & _ & H)]; discriminate.
  - rewrite IH. split.
    + intros [H | [before (letter & slash & rest & Hl & Hs & ->)]];
        [now exists EmptyString|].
      exists (String c before), letter, slash, rest. auto.
    + intros [[|b before] (letter & slash & rest & Hl & Hs & H)].
      * left. exists letter, slash, rest. auto.
      * right. cbn in H. inversion H; subst.
        exists before, letter, slash, rest. auto.
Qed.

(** X18.  [isInternalRemotePath] answers [true] exactly for the paths that
    begin with [/__vscode-remote-uri__] and for the paths that hold,
    anywhere, a letter, a colon, a slash or backslash and
    [__vscode-remote-uri__].  Nothing has to follow the marker, and the
    drive letter need not open the path. *)
Theorem isInternalRemotePath_spec path :
  isInternalRemotePath path = true
  <-> (exists rest, path = "/__vscode-remote-uri__" ++ rest)
      \/ (exists before, holdsDriveComponent before path).
Proof.
  unfold isInternalRemotePath.
  now rewrite orb_true_iff, startsWith_spec, driveComponentSomewhere_spec.
Qed.

(** Three paths the test accepts: the two intended forms, and a path
    whose drive letter sits in the middle and whose marker is followed by
    more letters. *)
Example isInternalRemotePath_examples :
  isInternalRemotePath "/__vscode-remote-uri__/home/me/app.js" = true
  /\ isInternalRemotePath "C:\__vscode-remote-uri__\app.js" = true
  /\ isInternalRemotePath "/tmp/x:/__vscode-remote-uri__old" = true
  /\ isInternalRemotePath "/home/me/__vscode-remote-uri__/app.js" = false.
Proof. vm_compute. auto. Qed.

(** * Properties of the request/response socket *)

Lemma wsCall_nextId c this :
  _nextId (fst (wsCall c this)) =
  match c with
  | Request _ _ _ => (_nextId this + 1)%Z
  | _ => _nextId this
  end.
Proof.
  destruct c as [method params resolve| |message]; cbn [wsCall]; [| reflexivity |].
  - unfold WebKitConnection_sendMessage, ResReqWebSocket_sendMessage.
    destruct (_wsAttached (_socket this)); reflexivity.
  - destruct (ResReqWebSocket_onMessage message (_socket this)); reflexivity.
Qed.

Lemma wsCall_pendingBelowNext c this :
  pendingBelowNext this -> pendingBelowNext (fst (wsCall c this)).
Proof.
  intros [Hpos Hbelow]. destruct c as [method params resolve| |message];
    cbn [wsCall].
  - unfold WebKitConnection_sendMessage, ResReqWebSocket_sendMessage.
    assert (pendingBelowNext
              {| _nextId := (_nextId this + 1)%Z;
                 _socket := {| _pendingRequests :=
                                 <[_nextId this := resolve]>
                                   (_pendingRequests (_socket this));
                               _wsAttached := _wsAttached (_socket this) |} |}) as H.
    { split; cbn; [lia|]. intros n r Hn.
      apply lookup_insert_Some in Hn as [[<- _] | [_ Hn]]; [lia|].
      specialize (Hbelow _ _ Hn). lia. }
    destruct (_wsAttached (_socket this)); exact H.
  - split; [exact Hpos | exact Hbelow].
  - unfold ResReqWebSocket_onMessage.
    destruct (truthyId message) as [n|].
    + destruct (_pendingRequests (_socket this) !! n) as [found|] eqn:E;
        (split; cbn; [exact Hpos|]); [|exact Hbelow].
      intros j r Hj. apply lookup_delete_Some in Hj as [_ Hj]. eauto.
    + destruct (msg_method message) as [m|]; [|split; assumption].
      destruct (String.eqb m EmptyString); split; assumption.
Qed.

Lemma wsCalls_state cs this :
  pendingBelowNext this ->
  pendingBelowNext (fst (wsCalls cs this))
  /\ _nextId (fst (wsCalls cs this)) = (_nextId this + Z.of_nat (requestsMade cs))%Z.
Proof.
  revert this. induction cs as [|c cs IH]; intros this Hinv.
  - cbn. split; [exact Hinv | lia].
  - cbn [wsCalls].
    pose proof (wsCall_pendingBelowNext c this Hinv) as Hnext.
    pose proof (wsCall_nextId c this) as Hid.
    destruct (wsCall c this) as [next effects]. cbn [fst] in *.
    destruct (IH next Hnext) as [Hlast Hcount].
    destruct (wsCalls cs next) as [last effects']. cbn [fst] in *.
    split; [exact Hlast|]. rewrite Hcount, Hid.
    unfold requestsMade. cbn [List.filter].
    destruct c; cbn [length]; lia.
Qed.

Lemma newWebKitConnection_pendingBelowNext : pendingBelowNext newWebKitConnection.
Proof. split; cbn; [lia|]. intros n r H. now rewrite lookup_empty in H. Qed.

(** X19.  Request ids count up from 1 and are never reused while pending.
    After any calls on a new connection the id the next request will take
    is one more than the number of requests made so far, and no pending
    request has that id: a new request never replaces a pending one. *)
Theorem next_request_id_is_fresh (cs : list WsCall) :
  let this := fst (wsCalls cs newWebKitConnection) in
  _nextId this = (1 + Z.of_nat (requestsMade cs))%Z
  /\ _pendingRequests (_socket this) !! _nextId this = None.
Proof.
  intros this.
  destruct (wsCalls_state cs newWebKitConnection newWebKitConnection_pendingBelowNext)
    as [[_ Hbelow] Hcount].
  fold this in Hbelow, Hcount. split; [exact Hcount|].
  destruct (_pendingRequests (_socket this) !! _nextId this) as [r|] eqn:E;
    [|reflexivity].
  specialize (Hbelow _ _ E). lia.
Qed.

(** X20.  A request is answered once.  On a connection reached from a new one
    by any calls, the first message from the target that carries the id
    of a request just made resolves the promise of that request, with the
    message, and takes the request off the table; the same message
    arriving again resolves nothing and is reported on the console. *)
Theorem request_is_answered_once cs method params resolve response :
  let this := fst (wsCalls cs newWebKitConnection) in
  msg_id response = Some (_nextId this) ->
  let sent := fst (wsCall (Request method params resolve) this) in
  let answered := wsCall (FromTarget response) sent in
  let again := wsCall (FromTarget response) (fst answered) in
  snd answered = [Resolve resolve response]
  /\ _pendingRequests (_socket (fst answered)) = _pendingRequests (_socket this)
  /\ snd again = [ConsoleError (_nextId this)]
  /\ fst again = fst answered.
Proof.
  intros this Hid sent answered again.
  destruct (wsCalls_state cs newWebKitConnection newWebKitConnection_pendingBelowNext)
    as [[Hpos Hbelow] _].
  fold this in Hpos, Hbelow.
  assert (_pendingRequests (_socket this) !! _nextId this = None) as Hfresh.
  { destruct (_pendingRequests (_socket this) !! _nextId this) as [r|] eqn:E;
      [|reflexivity].
    specialize (Hbelow _ _ E). lia. }
  assert (truthyId response = Some (_nextId this)) as Htruthy.
  { unfold truthyId. rewrite Hid.
    destruct (Z.eqb_spec (_nextId this) 0); [lia | reflexivity]. }
  assert (_pendingRequests (_socket sent)
          = <[_nextId this := resolve]> (_pendingRequests (_socket this))) as Hsent.
  { subst sent. cbn [wsCall].
    unfold WebKitConnection_sendMessage, ResReqWebSocket_sendMessage.
    destruct (_wsAttached (_socket this)); reflexivity. }
  assert (answered =
          ({| _nextId := _nextId sent;
              _socket := {| _pendingRequests := _pendingRequests (_socket this);
                            _wsAttached := _wsAttached (_socket sent) |} |},
           [Resolve resolve response])) as Hanswered.
  { subst answered. cbn [wsCall]. unfold ResReqWebSocket_onMessage.
    rewrite Htruthy, Hsent, lookup_insert_eq, (delete_insert_id _ _ _ Hfresh).
    reflexivity. }
  subst again. rewrite Hanswered. cbn [fst snd wsCall _socket].
  unfold ResReqWebSocket_onMessage. cbn [_pendingRequests].
  rewrite Htruthy, Hfresh. auto.
Qed.

Lemma request_is_answered_once_witness :
  let this := fst (wsCalls [Attach; Request "Debugger.enable" "p" 4] newWebKitConnection) in
  let response := mkMessage (Some 2%Z) None "result" in
  snd (wsCall (FromTarget response)
              (fst (wsCall (Request "Debugger.pause" "q" 5) this)))
  = [Resolve 5 response].
Proof.
  intros this response.
  destruct (request_is_answered_once [Attach; Request "Debugger.enable" "p" 4]
              "Debugger.pause" "q" 5 response eq_refl) as [H _].
  exact H.
Defined.

(** * Properties of [getUrlWithRetry] *)

(** X21.  The first attempt that succeeds settles the promise.  If the attempt
    number [i] is the first to get an answer and [i] is at most
    [retryCount], the promise resolves with that answer after [i] waits
    of 200 ms, and no later attempt is made. *)
Theorem getUrlWithRetry_first_answer answers attempt retryCount i body :
  (i <= retryCount)%nat ->
  (forall j, (j < i)%nat -> answers (attempt + j)%nat = None) ->
  answers (attempt + i)%nat = Some body ->
  getUrlWithRetry answers attempt retryCount = (Resolved body, repeat 200%Z i).
Proof.
  revert attempt retryCount.
  induction i as [|i IH]; intros attempt retryCount Hle Hnone Hsome.
  - rewrite Nat.add_0_r in Hsome.
    destruct retryCount; cbn [getUrlWithRetry]; unfold getUrl; now rewrite Hsome.
  - destruct retryCount as [|fewer]; [lia|].
    cbn [getUrlWithRetry]. unfold getUrl at 1.
    pose proof (Hnone 0%nat ltac:(lia)) as H0. rewrite Nat.add_0_r in H0. rewrite H0.
    rewrite (IH (S attempt) fewer).
    + reflexivity.
    + lia.
    + intros j Hj. specialize (Hnone (S j) ltac:(lia)).
      now rewrite Nat.add_succ_comm.
    + now rewrite Nat.add_succ_comm.
Qed.

Lemma getUrlWithRetry_first_answer_witness :
  getUrlWithRetry (fun k => if (k <? 2)%nat then None else Some "[]") 0 5
  = (Resolved "[]", [200; 200]%Z).
Proof.
  apply (getUrlWithRetry_first_answer _ 0 5 2 "[]"); [lia | | reflexivity].
  intros [|[|j]] Hj; [reflexivity | reflexivity | lia].
Defined.

(** X22.  Without any answer the promise is rejected after [retryCount + 1]
    attempts: [retryCount] waits of 200 ms were made, and the reason is
    the one [getUrl] gives. *)
Theorem getUrlWithRetry_gives_up answers attempt retryCount :
  (forall j, (j <= retryCount)%nat -> answers (attempt + j)%nat = None) ->
  getUrlWithRetry answers attempt retryCount
  = (Rejected cannotConnect, repeat 200%Z retryCount).
Proof.
  revert attempt. induction retryCount as [|fewer IH]; intros attempt Hnone.
  - cbn [getUrlWithRetry]. unfold getUrl.
    pose proof (Hnone 0%nat ltac:(lia)) as H0. rewrite Nat.add_0_r in H0.
    now rewrite H0.
  - cbn [getUrlWithRetry]. unfold getUrl at 1.
    pose proof (Hnone 0%nat ltac:(lia)) as H0. rewrite Nat.add_0_r in H0. rewrite H0.
    rewrite (IH (S attempt)); [reflexivity|].
    intros j Hj. specialize (Hnone (S j) ltac:(lia)).
    now rewrite Nat.add_succ_comm.
Qed.

Lemma getUrlWithRetry_gives_up_witness :
  getUrlWithRetry (fun _ => None) 0 5
  = (Rejected cannotConnect, [200; 200; 200; 200; 200]%Z).
Proof. apply (getUrlWithRetry_gives_up (fun _ => None) 0 5). reflexivity. Defined.
